(** * filesystem.js: the [Files] and [FileSystems] facades

    A shallow embedding of [Files] (createDirectories, the attribute
    getters, exists / notExists, copy / move, copyFromStream) and of
    [FileSystems] (getFileSystem, newFileSystem).

    The facades are stateless dispatchers over a provider.  A provider call
    may change the backend and may throw, so every operation is a function
    from a world [W] to an outcome and a world.  JavaScript keeps the side
    effects performed before a throw, which is why the world is returned on
    both outcomes. *)

From Stdlib Require Import String Ascii List Bool Arith Lia.
From Equations Require Import Equations.
Import ListNotations.
Open Scope string_scope.
Open Scope list_scope.

(** ** Exceptions and completions *)

Module Js.

(** The exception classes the two facades name.  [TypeError] is the
    language's own failure when a property of [undefined] is read or when
    [undefined] is iterated. *)
Inductive Exception : Type :=
| FileSystemException (file : string) (other : option string) (reason : string)
| FileAlreadyExistsException (file : string)
| NoSuchFileException (file : string)
| SecurityException (message : string)
| UnsupportedOperationException (message : string)
| NullPointerException (message : string)
| IllegalArgumentException (message : string)
| ProviderNotFoundException (message : string)
| TypeError
| JsError (message : string).

(** [x instanceof C] for the four classes the code tests. *)
Definition instanceof_FileAlreadyExistsException (x : Exception) : bool :=
  match x with FileAlreadyExistsException _ => true | _ => false end.

Definition instanceof_NoSuchFileException (x : Exception) : bool :=
  match x with NoSuchFileException _ => true | _ => false end.

Definition instanceof_SecurityException (x : Exception) : bool :=
  match x with SecurityException _ => true | _ => false end.

Definition instanceof_UnsupportedOperationException (x : Exception) : bool :=
  match x with UnsupportedOperationException _ => true | _ => false end.

Inductive Result (A : Type) : Type :=
| Ok (value : A)
| Throw (x : Exception).
Arguments Ok {A} value.
Arguments Throw {A} x.

(** A computation over a state [S]. *)
Definition M (S A : Type) : Type := S -> Result A * S.

Section Combinators.
Context {S : Type}.

Definition ret {A} (a : A) : M S A := fun s => (Ok a, s).

Definition throw {A} (x : Exception) : M S A := fun s => (Throw x, s).

Definition bind {A B} (m : M S A) (k : A -> M S B) : M S B :=
  fun s => match m s with
           | (Ok a, s1) => k a s1
           | (Throw x, s1) => (Throw x, s1)
           end.

(** [try { body } catch (x) { handler x }] *)
Definition try_catch {A} (body : M S A) (handler : Exception -> M S A) : M S A :=
  fun s => match body s with
           | (Ok a, s1) => (Ok a, s1)
           | (Throw x, s1) => handler x s1
           end.

(** [try { body } finally { cleanup }]: the cleanup runs on both
    outcomes, and an exception thrown by the cleanup replaces the pending
    completion of the body. *)
Definition try_finally {A} (body : M S A) (cleanup : M S unit) : M S A :=
  fun s => match body s with
           | (r, s1) => match cleanup s1 with
                        | (Ok _, s2) => (r, s2)
                        | (Throw x, s2) => (Throw x, s2)
                        end
           end.
End Combinators.

(** [String.prototype.toLowerCase] on the code units the model's strings
    hold: the letters A to Z map to a to z, everything else is kept. *)
Definition toLowerCase_ascii (c : ascii) : ascii :=
  let n := nat_of_ascii c in
  if Nat.leb 65 n && Nat.leb n 90 then ascii_of_nat (n + 32) else c.

Fixpoint toLowerCase (s : string) : string :=
  match s with
  | EmptyString => EmptyString
  | String c rest => String (toLowerCase_ascii c) (toLowerCase rest)
  end.

(** The double quote character, for messages that quote a name. *)
Definition dquote : string :=
  String (Ascii false true false false false true false false) EmptyString.

(** A [let] variable that the body of a [try] assigns and its [finally]
    reads: the variable lives next to the world for the extent of the
    block. *)
Section Locals.
Context {L S : Type}.

Definition lift_world {A} (m : M S A) : M (L * S) A :=
  fun ls => match m (snd ls) with (r, s1) => (r, (fst ls, s1)) end.

Definition get_local : M (L * S) L := fun ls => (Ok (fst ls), ls).

Definition set_local (l : L) : M (L * S) unit := fun ls => (Ok tt, (l, snd ls)).

Definition with_local {A} (init : L) (m : M (L * S) A) : M S A :=
  fun s => match m (init, s) with (r, ls) => (r, snd ls) end.
End Locals.

End Js.
Export Js.

Declare Scope js_scope.
Delimit Scope js_scope with js.
Notation "x <- c1 ;; c2" := (bind c1 (fun x => c2))
  (at level 61, c1 at next level, right associativity) : js_scope.
Notation "c1 ;; c2" := (bind c1 (fun _ => c2))
  (at level 61, right associativity) : js_scope.
Open Scope js_scope.

(** ** The data the facades pass around *)

Module Spi.

(** Providers are objects compared by reference ([===] in [Files.copy]):
    a provider is named by its reference, its methods are looked up in the
    runtime. *)
Definition ProviderRef : Type := nat.

(** [FileSystem] is abstract in the source; the facades only call
    [provider()] on it. *)
Record FileSystem : Type := mkFileSystem {
  fs_id : nat;
  provider : ProviderRef
}.

(** Modelled from the spec: [Path] is declared in ./Path, which is not
    among the sources.  A path is immutable and holds its owning file
    system, the absolute/relative flag and the ordered name components. *)
Record Path : Type := mkPath {
  getFileSystem : FileSystem;
  isAbsolute : bool;
  names : list string
}.

(** [LinkOption] is imported by [Files]; the only member it names is
    [NOFOLLOW_LINKS].  An array element is [None] when it is null or
    undefined. *)
Inductive LinkOption : Type := NOFOLLOW_LINKS | OTHER_LINK_OPTION.

(** [CopyOption] values: [StandardCopyOption.REPLACE_EXISTING] and any
    other option, which [copyFromStream] prints into its message. *)
Inductive CopyOption : Type :=
| REPLACE_EXISTING
| OtherCopyOption (name : string).

Definition CopyOption_toString (o : CopyOption) : string :=
  match o with
  | REPLACE_EXISTING => "REPLACE_EXISTING"
  | OtherCopyOption n => n
  end.

Inductive StandardOpenOption : Type := CREATE_NEW | WRITE.

Inductive AccessMode : Type := READ | WRITE_ACCESS | EXECUTE.

(** What the getters read out of a [BasicFileAttributes] object. *)
Record BasicFileAttributes : Type := mkAttrs {
  attr_isDirectory : bool;
  attr_isRegularFile : bool;
  attr_isSymbolicLink : bool;
  attr_size : nat;
  attr_lastModifiedTime : nat
}.

(** Streams are objects of the host platform, named by a handle. *)
Definition ReadableStream : Type := nat.
Definition WritableStream : Type := nat.

(** [FileAttribute<any>[]] is passed through untouched. *)
Definition FileAttributes : Type := list string.

Record URL : Type := mkURL { protocol : string; href : string }.

(** The service provider interface, as far as the two facades call it. *)
Record FileSystemProvider (W : Type) : Type := mkProvider {
  getScheme : string;
  provider_getFileSystem : URL -> M W FileSystem;
  newFileSystemFromUrl : URL -> list (string * string) -> M W FileSystem;
  newOutputStream : Path -> option (list StandardOpenOption) -> M W WritableStream;
  createDirectory : Path -> option FileAttributes -> M W unit;
  deleteIfExists : Path -> M W bool;
  provider_copy : Path -> Path -> option (list (option CopyOption)) -> M W unit;
  provider_move : Path -> Path -> option (list (option CopyOption)) -> M W unit;
  checkAccess : Path -> option (list AccessMode) -> M W unit;
  readAttributesWithType :
    Path -> option string -> option (list (option LinkOption)) -> M W BasicFileAttributes;
  (** Modelled from the spec: [Path.toAbsolutePath] resolves a relative
      path against the provider's working directory and can fail. *)
  workingDirectory : M W (list string)
}.
Arguments getScheme {W} _.
Arguments provider_getFileSystem {W} _ _ _.
Arguments newFileSystemFromUrl {W} _ _ _ _.
Arguments newOutputStream {W} _ _ _ _.
Arguments createDirectory {W} _ _ _ _.
Arguments deleteIfExists {W} _ _ _.
Arguments provider_copy {W} _ _ _ _ _.
Arguments provider_move {W} _ _ _ _ _.
Arguments checkAccess {W} _ _ _ _.
Arguments readAttributesWithType {W} _ _ _ _ _.
Arguments workingDirectory {W} _ _.

(** Everything outside the facades that they call into: the provider
    objects, the host's stream methods and the cross-provider helpers of
    ./CopyMoveHelper. *)
Record Runtime (W : Type) : Type := mkRuntime {
  providers : ProviderRef -> FileSystemProvider W;
  pipeTo : ReadableStream -> WritableStream -> M W unit;
  stream_close : WritableStream -> M W unit;
  copyToForeignTarget : Path -> Path -> option (list (option CopyOption)) -> M W unit;
  moveToForeignTarget : Path -> Path -> option (list (option CopyOption)) -> M W unit
}.
Arguments providers {W} _ _.
Arguments pipeTo {W} _ _ _ _.
Arguments stream_close {W} _ _ _.
Arguments copyToForeignTarget {W} _ _ _ _ _.
Arguments moveToForeignTarget {W} _ _ _ _ _.

End Spi.
Export Spi.

(** ** Path algebra *)

Module PathOps.

(** Modelled from the spec: [Path] is not among the sources.  The root and
    a single relative name have no parent; otherwise the parent drops the
    last name. *)
Definition getParent (p : Path) : option Path :=
  match names p with
  | [] => None
  | _ :: _ =>
      match removelast (names p) with
      | [] => if isAbsolute p
              then Some (mkPath (getFileSystem p) true [])
              else None
      | init => Some (mkPath (getFileSystem p) (isAbsolute p) init)
      end
  end.

(** Modelled from the spec: [resolve(other)] returns [other] when it is
    absolute, [this] when [other] is empty, and otherwise concatenates the
    components, keeping the absoluteness of [this]. *)
Definition resolve (this other : Path) : Path :=
  if isAbsolute other then other
  else match names other with
       | [] => this
       | _ => mkPath (getFileSystem this) (isAbsolute this)
                (names this ++ names other)
       end.

(** The two component sequences without their longest common prefix. *)
Fixpoint strip_common (a b : list string) : list string * list string :=
  match a, b with
  | x :: a', y :: b' => if String.eqb x y then strip_common a' b' else (a, b)
  | _, _ => (a, b)
  end.

(** Modelled from the spec: [relativize(other)] needs the same
    absoluteness and file system; it drops the longest common prefix and
    emits one [..] per remaining component of [this], then the remaining
    components of [other]. *)
Definition relativize (this other : Path) : Result Path :=
  if Bool.eqb (isAbsolute this) (isAbsolute other)
     && Nat.eqb (fs_id (getFileSystem this)) (fs_id (getFileSystem other))
  then let (ra, rb) := strip_common (names this) (names other) in
       Ok (mkPath (getFileSystem this) false (map (fun _ => "..") ra ++ rb))
  else Throw (IllegalArgumentException "'other' is different type of Path").

(** Modelled from the spec: iterating a path yields its name components,
    each as a relative path of one name. *)
Definition iterator (p : Path) : list Path :=
  map (fun n => mkPath (getFileSystem p) false [n]) (names p).

(** Modelled from the spec: the string form, with [/] as the separator. *)
Definition toString (p : Path) : string :=
  ((if isAbsolute p then "/" else EmptyString) ++ String.concat "/" (names p))%string.

(** The number of [getParent] steps before [null]. *)
Definition rank (parent : option Path) : nat :=
  match parent with
  | None => 0
  | Some p => S (length (names p))
  end.

Lemma removelast_length {A} (l : list A) :
  length (removelast l) = pred (length l).
Proof.
  induction l as [|a [|b l] IH]; simpl in *; auto.
Qed.

Lemma getParent_rank (p : Path) : rank (getParent p) < rank (Some p).
Proof.
  unfold getParent, rank.
  destruct (names p) as [|n ns] eqn:E; [lia|].
  pose proof (removelast_length (n :: ns)) as L.
  destruct (removelast (n :: ns)) as [|i init].
  - destruct (isAbsolute p); simpl; lia.
  - simpl in *. lia.
Qed.

End PathOps.
Import PathOps.

(** ** The rest of the interface

    The provider methods, host methods and file-system methods that the
    remaining operations of [Files] call: input streams, directory streams,
    attribute views and path matchers. *)

Module SpiRest.

Definition UserPrincipal : Type := string.
Definition FileTime : Type := nat.
Definition PosixFilePermission : Type := string.

(** The object [getFileAttributeView] answers.  [Files] casts it to the
    view it asked for without a test, so a method is [None] when the
    object does not have it. *)
Record FileAttributeView (W : Type) : Type := mkView {
  setPermissions : option (list PosixFilePermission -> M W unit);
  view_getOwner : option (M W UserPrincipal);
  view_setOwner : option (UserPrincipal -> M W unit);
  setTimes : option (option FileTime -> option FileTime -> option FileTime -> M W unit)
}.
Arguments setPermissions {W} _.
Arguments view_getOwner {W} _.
Arguments view_setOwner {W} _.
Arguments setTimes {W} _.

(** [PathMatcher.matches], applied to what [getFileName] answers. *)
Definition PathMatcher : Type := option Path -> bool.

(** A directory stream, as the sequence of paths it yields. *)
Definition DirectoryStream : Type := list Path.

(** Modelled from the spec: [Path.getFileName] is the last name component
    as a relative path, and [null] for a path without names. *)
Definition getFileName (p : Path) : option Path :=
  match names p with
  | [] => None
  | n :: ns => Some (mkPath (getFileSystem p) false [last ns n])
  end.

Record ProviderRest (W : Type) : Type := mkProviderRest {
  newInputStream : Path -> option (list StandardOpenOption) -> M W ReadableStream;
  newDirectoryStream : Path -> (Path -> bool) -> M W DirectoryStream;
  getFileAttributeView :
    Path -> option string -> option (list (option LinkOption)) ->
    M W (option (FileAttributeView W))
}.
Arguments newInputStream {W} _ _ _ _.
Arguments newDirectoryStream {W} _ _ _ _.
Arguments getFileAttributeView {W} _ _ _ _ _.

Record RuntimeRest (W : Type) : Type := mkRuntimeRest {
  providers_rest : ProviderRef -> ProviderRest W;
  stream_cancel : ReadableStream -> M W unit;
  (** [FileSystem.getPathMatcher(syntaxAndPattern)] *)
  getPathMatcher : FileSystem -> string -> M W PathMatcher
}.
Arguments providers_rest {W} _ _.
Arguments stream_cancel {W} _ _ _.
Arguments getPathMatcher {W} _ _ _ _.

End SpiRest.
Export SpiRest.

(** ** Files *)

Module Files.

Section WithRuntime.
Context {W : Type}.
Variable rt : Runtime W.

(** An exception raised while evaluating an expression: [Ok] values
    continue, a [Throw] is thrown. *)
Definition lift_result {S A} (r : Result A) : M S A := fun s => (r, s).

(** [private static provider(path)] *)
Definition provider (path : Path) : FileSystemProvider W :=
  providers rt (Spi.provider (getFileSystem path)).

(** [path.getFileSystem().provider()] as the reference that [===]
    compares. *)
Definition provider_ref (path : Path) : ProviderRef :=
  Spi.provider (getFileSystem path).

(** Modelled from the spec: [Path.toAbsolutePath] is the identity on an
    absolute path and otherwise resolves against the provider's working
    directory, which may fail. *)
Definition toAbsolutePath (p : Path) : M W Path :=
  if isAbsolute p then ret p
  else cwd <- workingDirectory (provider p) ;;
       ret (mkPath (getFileSystem p) true (cwd ++ names p)).

Definition newOutputStream (path : Path) (options : option (list StandardOpenOption))
  : M W WritableStream :=
  Spi.newOutputStream (provider path) path options.

Definition createDirectory (dir : Path) (attrs : option FileAttributes) : M W Path :=
  Spi.createDirectory (provider dir) dir attrs ;;
  ret dir.

Definition deleteIfExists (path : Path) : M W bool :=
  Spi.deleteIfExists (provider path) path.

Definition readAttributesWithType (path : Path) (type : option string)
    (options : option (list (option LinkOption))) : M W BasicFileAttributes :=
  Spi.readAttributesWithType (provider path) path type options.

(** *** Attribute getters *)

Definition isSymbolicLink (path : Path) : M W bool :=
  try_catch
    (a <- readAttributesWithType path None (Some [Some NOFOLLOW_LINKS]) ;;
     ret (attr_isSymbolicLink a))
    (fun ioe => ret false).

Definition isDirectory (path : Path) (options : option (list (option LinkOption)))
  : M W bool :=
  try_catch
    (a <- readAttributesWithType path None options ;;
     ret (attr_isDirectory a))
    (fun ioe => ret false).

Definition isRegularFile (path : Path) (options : option (list (option LinkOption)))
  : M W bool :=
  try_catch
    (a <- readAttributesWithType path None options ;;
     ret (attr_isRegularFile a))
    (fun ioe => ret false).

Definition getLastModifiedTime (path : Path)
    (options : option (list (option LinkOption))) : M W nat :=
  a <- readAttributesWithType path None options ;;
  ret (attr_lastModifiedTime a).

Definition size (path : Path) : M W nat :=
  a <- readAttributesWithType path None None ;;
  ret (attr_size a).

(** *** Accessibility *)

Fixpoint followLinks_loop (options : list (option LinkOption)) (followLinks : bool)
  : M W bool :=
  match options with
  | [] => ret followLinks
  | opt :: rest =>
      match opt with
      | Some NOFOLLOW_LINKS => followLinks_loop rest false
      | None => throw (NullPointerException EmptyString)
      | Some _ => throw (JsError "Should not get here")
      end
  end.

Definition followLinks (options : option (list (option LinkOption))) : M W bool :=
  match options with
  | Some opts => followLinks_loop opts true
  | None => ret true
  end.

Definition exists_ (path : Path) (options : option (list (option LinkOption)))
  : M W bool :=
  try_catch
    (follow <- followLinks options ;;
     (if follow
      then checkAccess (provider path) path None
      else readAttributesWithType path (Some "BasicFileAttributes")
             (Some [Some NOFOLLOW_LINKS]) ;;
           ret tt) ;;
     ret true)
    (fun x => ret false).

Definition notExists (path : Path) (options : option (list (option LinkOption)))
  : M W bool :=
  try_catch
    (follow <- followLinks options ;;
     (if follow
      then checkAccess (provider path) path None
      else readAttributesWithType path (Some "BasicFileAttributes")
             (Some [Some NOFOLLOW_LINKS]) ;;
           ret tt) ;;
     ret false)
    (fun x => if instanceof_NoSuchFileException x then ret true else ret false).

(** *** Copy and move *)

Definition copy (source target : Path) (options : option (list (option CopyOption)))
  : M W Path :=
  let provider_ := provider_ref source in
  (if Nat.eqb (provider_ref target) provider_
   then provider_copy (providers rt provider_) source target options
   else copyToForeignTarget rt source target options) ;;
  ret target.

Definition move (source target : Path) (options : option (list (option CopyOption)))
  : M W Path :=
  let provider_ := provider_ref source in
  (if Nat.eqb (provider_ref target) provider_
   then provider_move (providers rt provider_) source target options
   else moveToForeignTarget rt source target options) ;;
  ret target.

(** *** Directory tree creation *)

Definition createAndCheckIsDirectory (dir : Path) (attrs : option FileAttributes)
  : M W unit :=
  try_catch
    (createDirectory dir attrs ;; ret tt)
    (fun x =>
       if instanceof_FileAlreadyExistsException x
       then isDir <- isDirectory dir (Some [Some NOFOLLOW_LINKS]) ;;
            if negb isDir then throw x else ret tt
       else ret tt).

(** The [while (parent != null)] loop: the first parent whose access
    check returns, or [null] when every check up to the root throws.
    The [catch] block is empty for every exception. *)
Equations? find_accessible_parent (parent : option Path) (w : W)
  : Result (option Path) * W by wf (rank parent) lt :=
  find_accessible_parent None w := (Ok None, w);
  find_accessible_parent (Some p) w with checkAccess (provider p) p None w := {
    | (Ok _, w1) := (Ok (Some p), w1);
    | (Throw x, w1) := find_accessible_parent (getParent p) w1 }.
Proof.
  apply getParent_rank.
Qed.

(** The [for (let name of parent.relativize(dir))] loop. *)
Fixpoint create_segments (child : Path) (segments : list Path)
    (attrs : option FileAttributes) : M W unit :=
  match segments with
  | [] => ret tt
  | name :: rest =>
      let child := resolve child name in
      createAndCheckIsDirectory child attrs ;;
      create_segments child rest attrs
  end.

(** [createDirectories] after its first [try] statement: the absolute
    path, the upward walk and the creation of the missing segments. *)
Definition createDirectories_fallback (dir : Path) (attrs : option FileAttributes)
  : M W Path :=
  se_dir <- try_catch
              (abs <- toAbsolutePath dir ;; ret (None, abs))
              (fun x => if instanceof_SecurityException x
                        then ret (Some x, dir)
                        else ret (None, dir)) ;;
  let se : option Exception := fst se_dir in
  let dir := snd se_dir in
  parent <- find_accessible_parent (getParent dir) ;;
  match parent with
  | None =>
      match se with
      | None => throw (FileSystemException (toString dir) None
                         "Unable to determine if root directory exists")
      | Some x => throw x
      end
  | Some parent =>
      rel <- lift_result (relativize parent dir) ;;
      create_segments parent (iterator rel) attrs ;;
      ret dir
  end.

Definition createDirectories (dir : Path) (attrs : option FileAttributes)
  : M W Path :=
  returned <- try_catch
                (createAndCheckIsDirectory dir attrs ;; ret (Some dir))
                (fun x => if instanceof_FileAlreadyExistsException x
                          then throw x
                          else ret None) ;;
  match returned with
  | Some dir => ret dir
  | None => createDirectories_fallback dir attrs
  end.

(** *** Stream copy *)

(** [for (let opt of options)]: iterating [undefined] throws. *)
Definition iterate {A} (options : option (list A)) : M W (list A) :=
  match options with
  | Some opts => ret opts
  | None => throw TypeError
  end.

Fixpoint copyFromStream_options (options : list (option CopyOption))
    (replaceExisting : bool) : M W bool :=
  match options with
  | [] => ret replaceExisting
  | opt :: rest =>
      match opt with
      | Some REPLACE_EXISTING => copyFromStream_options rest true
      | None => throw (NullPointerException "options contains 'null'")
      | Some o => throw (UnsupportedOperationException
                           (CopyOption_toString o ++ " not supported"))
      end
  end.

(** [await outputStream.close()] on the [let] variable, which is
    [undefined] until the assignment in the [try] body has run. *)
Definition close_outputStream : M (option WritableStream * W) unit :=
  outputStream <- get_local ;;
  match outputStream with
  | Some os => lift_world (stream_close rt os)
  | None => throw TypeError
  end.

(** The pre-delete under REPLACE_EXISTING: the value of [se] when the
    output stream is about to be opened. *)
Definition delete_before_copy (target : Path) (replaceExisting : bool)
  : M W (option Exception) :=
  if replaceExisting
  then try_catch
         (deleteIfExists target ;; ret None)
         (fun e => if instanceof_SecurityException e
                   then ret (Some e)
                   else ret None)
  else ret None.

(** The [try] / [catch] / [finally] statement that opens the target,
    pipes and closes. *)
Definition copyFromStream_transfer (input : ReadableStream) (target : Path)
    (se : option Exception) : M W unit :=
  with_local (None : option WritableStream)
    (try_finally
       (try_catch
          (os <- lift_world (newOutputStream target (Some [CREATE_NEW; WRITE])) ;;
           set_local (Some os) ;;
           lift_world (pipeTo rt input os))
          (fun x =>
             if instanceof_FileAlreadyExistsException x
             then match se with
                  | Some s => throw s
                  | None => throw x
                  end
             else ret tt))
       close_outputStream).

Definition copyFromStream (inputStream : option ReadableStream) (target : Path)
    (options : option (list (option CopyOption))) : M W unit :=
  match inputStream with
  | None => throw (NullPointerException EmptyString)
  | Some input =>
      opts <- iterate options ;;
      replaceExisting <- copyFromStream_options opts false ;;
      se <- delete_before_copy target replaceExisting ;;
      copyFromStream_transfer input target se
  end.

End WithRuntime.

Section WithRest.
Context {W : Type}.
Variable rt : Runtime W.
Variable rest : RuntimeRest W.

Definition provider_rest (path : Path) : ProviderRest W :=
  providers_rest rest (provider_ref path).

Definition newInputStream (path : Path) (options : option (list StandardOpenOption))
  : M W ReadableStream :=
  SpiRest.newInputStream (provider_rest path) path options.

(** *** Directory streams *)

Definition newDirectoryStream (dir : Path) : M W DirectoryStream :=
  SpiRest.newDirectoryStream (provider_rest dir) dir (fun _ => true).

Definition newDirectoryStreamFilteredWithGlob (dir : Path) (glob : string)
  : M W DirectoryStream :=
  if String.eqb glob "*"
  then newDirectoryStream dir
  else let fs := getFileSystem dir in
       matcher <- getPathMatcher rest fs ("glob:" ++ glob) ;;
       SpiRest.newDirectoryStream (provider_rest dir) dir
         (fun path => matcher (getFileName path)).

(** *** Attribute views *)

Definition getFileAttributeView (path : Path) (type : option string)
    (options : option (list (option LinkOption))) : M W (option (FileAttributeView W)) :=
  SpiRest.getFileAttributeView (provider_rest path) path type options.

(** A method call on an object: calling a property that is not there
    throws. *)
Definition invoke {A} (method : option (M W A)) : M W A :=
  match method with
  | Some call => call
  | None => throw TypeError
  end.

Definition setPosixFilePermissions (path : Path) (perms : list PosixFilePermission)
  : M W Path :=
  view <- getFileAttributeView path (Some "PosixFileAttributeView") None ;;
  match view with
  | None => throw (UnsupportedOperationException EmptyString)
  | Some view =>
      invoke (option_map (fun m => m perms) (setPermissions view)) ;;
      ret path
  end.

Definition getOwner (path : Path) (options : option (list (option LinkOption)))
  : M W UserPrincipal :=
  view <- getFileAttributeView path (Some "FileOwnerAttributeView") options ;;
  match view with
  | None => throw (UnsupportedOperationException EmptyString)
  | Some view => invoke (view_getOwner view)
  end.

Definition setOwner (path : Path) (owner : UserPrincipal) : M W Path :=
  view <- getFileAttributeView path (Some "FileOwnerAttributeView") None ;;
  match view with
  | None => throw (UnsupportedOperationException EmptyString)
  | Some view =>
      invoke (option_map (fun m => m owner) (view_setOwner view)) ;;
      ret path
  end.

(** No test of the view here: [setTimes] is read from what the provider
    answered. *)
Definition setLastModifiedTime (path : Path) (time : FileTime) : M W Path :=
  view <- getFileAttributeView path (Some "BasicFileAttributeView") None ;;
  match view with
  | None => throw TypeError
  | Some view =>
      invoke (option_map (fun m => m (Some time) None None) (setTimes view)) ;;
      ret path
  end.

(** *** Copy to a stream *)

(** [await inputStream.cancel()] on the [let] variable of
    [copyToStream]. *)
Definition cancel_inputStream : M (option ReadableStream * W) unit :=
  inputStream <- get_local ;;
  match inputStream with
  | Some input => lift_world (stream_cancel rest input)
  | None => throw TypeError
  end.

Definition copyToStream (source : Path) (outputStream : option WritableStream)
  : M W unit :=
  match outputStream with
  | None => throw (NullPointerException EmptyString)
  | Some output =>
      with_local (None : option ReadableStream)
        (try_finally
           (input <- lift_world (newInputStream source None) ;;
            set_local (Some input) ;;
            lift_world (pipeTo rt input output))
           cancel_inputStream)
  end.

End WithRest.

End Files.

(** ** FileSystems *)

Module FileSystems.

Section WithRegistry.
Context {W : Type}.
(** [FileSystemProviders.getInstalledProviders()], in iteration order. *)
Variable installedProviders : list (FileSystemProvider W).

Definition not_found (scheme : string) : Exception :=
  ProviderNotFoundException ("Provider " ++ dquote ++ scheme ++ dquote ++ " not found").

Fixpoint getFileSystem_scan (ps : list (FileSystemProvider W)) (scheme : string)
    (url : URL) : M W FileSystem :=
  match ps with
  | [] => throw (not_found scheme)
  | provider :: rest =>
      if String.eqb (getScheme provider) scheme
      then provider_getFileSystem provider url
      else getFileSystem_scan rest scheme url
  end.

(** [url.protocol] is a string, so the [scheme === null] test that
    follows the lower-casing never fires. *)
Definition getFileSystem (url : URL) : M W FileSystem :=
  let scheme := toLowerCase (protocol url) in
  getFileSystem_scan installedProviders scheme url.

Fixpoint newFileSystem_scan (ps : list (FileSystemProvider W)) (scheme : string)
    (uri : URL) (env : list (string * string)) : M W FileSystem :=
  match ps with
  | [] => throw (not_found scheme)
  | provider :: rest =>
      if String.eqb scheme (getScheme provider)
      then returned <- try_catch
                         (fs <- newFileSystemFromUrl provider uri env ;; ret (Some fs))
                         (fun exception =>
                            if instanceof_UnsupportedOperationException exception
                            then ret None
                            else throw exception) ;;
           match returned with
           | Some fs => ret fs
           | None => newFileSystem_scan rest scheme uri env
           end
      else newFileSystem_scan rest scheme uri env
  end.

Definition newFileSystem (uri : URL) (env : list (string * string)) : M W FileSystem :=
  let scheme := toLowerCase (protocol uri) in
  newFileSystem_scan installedProviders scheme uri env.

(** *** What the specification says of the two lookups *)

(** Two schemes compared without regard to case. *)
Definition equalsIgnoreCase (a b : string) : bool :=
  String.eqb (toLowerCase a) (toLowerCase b).

(** The provider test of [getFileSystem]. *)
Definition scheme_matches (scheme : string) (provider : FileSystemProvider W) : bool :=
  String.eqb (getScheme provider) scheme.

(** The specification's reading of [newFileSystem]: among the providers
    that [getFileSystem] would match, in registry order, the first whose
    [newFileSystemFromUrl] does not report an unsupported operation
    decides; when there is none the scheme is reported as not found. *)
Fixpoint first_supporting (candidates : list (FileSystemProvider W)) (scheme : string)
    (uri : URL) (env : list (string * string)) : M W FileSystem :=
  match candidates with
  | [] => throw (not_found scheme)
  | provider :: rest =>
      fun w =>
        match newFileSystemFromUrl provider uri env w with
        | (Ok fs, w1) => (Ok fs, w1)
        | (Throw x, w1) =>
            if instanceof_UnsupportedOperationException x
            then first_supporting rest scheme uri env w1
            else (Throw x, w1)
        end
  end.

Definition newFileSystem_spec (uri : URL) (env : list (string * string))
  : M W FileSystem :=
  let scheme := toLowerCase (protocol uri) in
  first_supporting (filter (scheme_matches scheme) installedProviders) scheme uri env.

End WithRegistry.

End FileSystems.

(** ** An in-memory provider

    A provider is an argument of the facades: whatever implements the
    interface can be handed to them.  This one keeps a table from name
    sequences to entry kinds and reports its failures in the classes of the
    error taxonomy (no such file, already exists, security, and a generic
    [FileSystemException]).  It supplies the concrete worlds on which the
    facades are run below. *)

Module MemFs.

Inductive Entry : Type := Directory | RegularFile | SymbolicLink.

Record World : Type := mkWorld {
  entries : list (list string * Entry);
  (** subtrees in which every provider call is denied *)
  unreadable : list (list string);
  (** subtrees in which creating and deleting is denied *)
  readonly : list (list string)
}.

Fixpoint names_eqb (a b : list string) : bool :=
  match a, b with
  | [], [] => true
  | x :: a', y :: b' => String.eqb x y && names_eqb a' b'
  | _, _ => false
  end.

Fixpoint prefixb (d key : list string) : bool :=
  match d, key with
  | [], _ => true
  | x :: d', y :: key' => String.eqb x y && prefixb d' key'
  | _ :: _, [] => false
  end.

Definition covered (subtrees : list (list string)) (key : list string) : bool :=
  existsb (fun d => prefixb d key) subtrees.

(** The root always exists and is a directory. *)
Definition lookup (w : World) (key : list string) : option Entry :=
  match key with
  | [] => Some Directory
  | _ => option_map snd (find (fun e => names_eqb (fst e) key) (entries w))
  end.

Definition insert (key : list string) (e : Entry) (w : World) : World :=
  mkWorld ((key, e) :: entries w) (unreadable w) (readonly w).

Definition remove (key : list string) (w : World) : World :=
  mkWorld (filter (fun e => negb (names_eqb (fst e) key)) (entries w))
    (unreadable w) (readonly w).

Definition attributes (e : Entry) : BasicFileAttributes :=
  match e with
  | Directory => mkAttrs true false false 0 0
  | RegularFile => mkAttrs false true false 0 0
  | SymbolicLink => mkAttrs false false true 0 0
  end.

Definition denied (p : Path) : Exception := SecurityException (toString p).

Definition mem_checkAccess (p : Path) (modes : option (list AccessMode)) : M World unit :=
  fun w =>
    if covered (unreadable w) (names p) then (Throw (denied p), w)
    else match lookup w (names p) with
         | Some _ => (Ok tt, w)
         | None => (Throw (NoSuchFileException (toString p)), w)
         end.

Definition mem_readAttributesWithType (p : Path) (type : option string)
    (options : option (list (option LinkOption))) : M World BasicFileAttributes :=
  fun w =>
    if covered (unreadable w) (names p) then (Throw (denied p), w)
    else match lookup w (names p) with
         | Some e => (Ok (attributes e), w)
         | None => (Throw (NoSuchFileException (toString p)), w)
         end.

Definition mem_createDirectory (p : Path) (attrs : option FileAttributes) : M World unit :=
  fun w =>
    if covered (unreadable w) (names p) then (Throw (denied p), w)
    else match lookup w (names p) with
         | Some _ => (Throw (FileAlreadyExistsException (toString p)), w)
         | None =>
             match lookup w (removelast (names p)) with
             | None => (Throw (NoSuchFileException (toString p)), w)
             | Some Directory =>
                 if covered (readonly w) (names p) then (Throw (denied p), w)
                 else (Ok tt, insert (names p) Directory w)
             | Some _ =>
                 (Throw (FileSystemException (toString p) None "Not a directory"), w)
             end
         end.

Definition mem_deleteIfExists (p : Path) : M World bool :=
  fun w =>
    if covered (unreadable w) (names p) || covered (readonly w) (names p)
    then (Throw (denied p), w)
    else match lookup w (names p) with
         | Some _ => (Ok true, remove (names p) w)
         | None => (Ok false, w)
         end.

(** Opening with CREATE_NEW: an existing entry is a conflict. *)
Definition mem_newOutputStream (p : Path) (options : option (list StandardOpenOption))
  : M World WritableStream :=
  fun w =>
    if covered (unreadable w) (names p) then (Throw (denied p), w)
    else match lookup w (names p) with
         | Some _ => (Throw (FileAlreadyExistsException (toString p)), w)
         | None =>
             if covered (readonly w) (names p) then (Throw (denied p), w)
             else (Ok 1, insert (names p) RegularFile w)
         end.

Definition mem_copy (source target : Path) (options : option (list (option CopyOption)))
  : M World unit :=
  fun w =>
    match lookup w (names source) with
    | None => (Throw (NoSuchFileException (toString source)), w)
    | Some e =>
        match lookup w (names target) with
        | Some _ => (Throw (FileAlreadyExistsException (toString target)), w)
        | None => (Ok tt, insert (names target) e w)
        end
    end.

Definition mem_move (source target : Path) (options : option (list (option CopyOption)))
  : M World unit :=
  fun w =>
    match mem_copy source target options w with
    | (Ok _, w1) => (Ok tt, remove (names source) w1)
    | (Throw x, w1) => (Throw x, w1)
    end.

(** The working directory is the root; reading it is denied when the root
    itself is unreadable. *)
Definition mem_workingDirectory : M World (list string) :=
  fun w =>
    if covered (unreadable w) []
    then (Throw (SecurityException "user.dir"), w)
    else (Ok [], w).

(** A provider of the table above under [scheme].  [created] is what its
    [newFileSystemFromUrl] answers. *)
Definition memProvider (scheme : string) (ref : ProviderRef)
    (created : Result FileSystem) : FileSystemProvider World :=
  {| getScheme := scheme;
     provider_getFileSystem := fun _ => ret (mkFileSystem ref ref);
     newFileSystemFromUrl := fun _ _ w => (created, w);
     newOutputStream := mem_newOutputStream;
     createDirectory := mem_createDirectory;
     deleteIfExists := mem_deleteIfExists;
     provider_copy := mem_copy;
     provider_move := mem_move;
     checkAccess := mem_checkAccess;
     readAttributesWithType := mem_readAttributesWithType;
     workingDirectory := mem_workingDirectory |}.

Definition unsupported : Result FileSystem :=
  Throw (UnsupportedOperationException EmptyString).

(** One table served under every provider reference; streams always pipe
    and close. *)
Definition runtime : Runtime World :=
  {| providers := fun ref => memProvider "mem:" ref unsupported;
     pipeTo := fun _ _ => ret tt;
     stream_close := fun _ => ret tt;
     copyToForeignTarget := mem_copy;
     moveToForeignTarget := mem_move |}.

Definition fs (ref : ProviderRef) : FileSystem := mkFileSystem ref ref.

(** [/a/b/...] on the file system of provider [ref]. *)
Definition path (ref : ProviderRef) (ns : list string) : Path := mkPath (fs ref) true ns.

Definition empty : World := mkWorld [] [] [].

End MemFs.

(** The rest of the interface on the same table. *)

Module MemFsRest.

Import MemFs.

Definition mem_newInputStream (p : Path) (options : option (list StandardOpenOption))
  : M World ReadableStream :=
  fun w =>
    if covered (unreadable w) (names p) then (Throw (denied p), w)
    else match lookup w (names p) with
         | Some _ => (Ok 2, w)
         | None => (Throw (NoSuchFileException (toString p)), w)
         end.

(** The entries directly below [dir]. *)
Definition children (w : World) (dir : Path) : list Path :=
  map (fun e => mkPath (getFileSystem dir) (isAbsolute dir) (fst e))
    (filter (fun e => match fst e with
                      | [] => false
                      | _ => names_eqb (removelast (fst e)) (names dir)
                      end)
       (entries w)).

Definition mem_newDirectoryStream (dir : Path) (filter : Path -> bool)
  : M World DirectoryStream :=
  fun w =>
    if covered (unreadable w) (names dir) then (Throw (denied dir), w)
    else match lookup w (names dir) with
         | Some Directory => (Ok (List.filter filter (children w dir)), w)
         | Some _ => (Throw (FileSystemException (toString dir) None "Not a directory"), w)
         | None => (Throw (NoSuchFileException (toString dir)), w)
         end.

(** Only the basic view is there; its [setTimes] changes nothing the
    table records. *)
Definition basic_view : FileAttributeView World :=
  mkView World None None None (Some (fun _ _ _ => ret tt)).

Definition mem_getFileAttributeView (p : Path) (type : option string)
    (options : option (list (option LinkOption)))
  : M World (option (FileAttributeView World)) :=
  match type with
  | Some t => if String.eqb t "BasicFileAttributeView"
              then ret (Some basic_view)
              else ret None
  | None => ret None
  end.

Definition memProviderRest : ProviderRest World :=
  {| newInputStream := mem_newInputStream;
     newDirectoryStream := mem_newDirectoryStream;
     getFileAttributeView := mem_getFileAttributeView |}.

(** A matcher for patterns without wildcards: the file name has to be the
    pattern. *)
Definition literal_matcher (syntaxAndPattern : string) : PathMatcher :=
  fun name =>
    match name with
    | Some p => String.eqb ("glob:" ++ String.concat "/" (names p)) syntaxAndPattern
    | None => false
    end.

Definition rest : RuntimeRest World :=
  {| providers_rest := fun _ => memProviderRest;
     stream_cancel := fun _ => ret tt;
     getPathMatcher := fun _ pattern => ret (literal_matcher pattern) |}.

End MemFsRest.

(** * Properties *)

(** Unfolds the completion combinators. *)
Ltac unfold_js :=
  unfold bind, ret, throw, try_catch, try_finally, with_local, lift_world,
    get_local, set_local in *.

(** Case analysis on the next provider call whose outcome the goal
    inspects. *)
Ltac next_call :=
  match goal with
  | |- context [match ?call ?w with (_, _) => _ end] =>
      let r := fresh "r" in
      let w1 := fresh "w" in
      let E := fresh "E" in
      destruct (call w) as [r w1] eqn:E; destruct r; simpl
  end.

(** ** The attribute getters *)

Module Getters.

Import MemFs.

(** A world with nothing at [/missing]. *)
Definition missing : Path := path 0 ["missing"].

Section Facts.
Context {W : Type}.
Variable rt : Runtime W.

(** The outcome of a getter that swallows: the attribute when the read
    returns, [false] when it throws. *)
Definition swallowing (field : BasicFileAttributes -> bool)
    (read : Result BasicFileAttributes * W) : Result bool * W :=
  match read with
  | (Ok a, w1) => (Ok (field a), w1)
  | (Throw _, w1) => (Ok false, w1)
  end.

(** The outcome of a getter that propagates: the read's own failure. *)
Definition propagating (field : BasicFileAttributes -> nat)
    (read : Result BasicFileAttributes * W) : Result nat * W :=
  match read with
  | (Ok a, w1) => (Ok (field a), w1)
  | (Throw x, w1) => (Throw x, w1)
  end.

Lemma swallowing_returns field read :
  exists b w1, swallowing field read = (Ok b, w1).
Proof.
  destruct read as [[a|x] w1]; simpl; eauto.
Qed.

End Facts.

(** C3, as stated, fails: [size] and [getLastModifiedTime] have no
    [try] around the attribute read, so the provider's failure reaches the
    caller.  Here the path does not exist. *)
Lemma size_and_time_throw :
  Files.size runtime missing empty
    = (Throw (NoSuchFileException "/missing"), empty)
  /\ Files.getLastModifiedTime runtime missing None empty
    = (Throw (NoSuchFileException "/missing"), empty).
Proof.
  split; reflexivity.
Qed.

(** C3, amended: [isDirectory], [isRegularFile] and [isSymbolicLink] read
    through [readAttributesWithType], answer [false] when the read throws
    and so never throw; [size] and [getLastModifiedTime] read through
    [readAttributesWithType] too, and a failure of the read propagates
    unchanged. *)
Theorem getters_read_attributes {W} (rt : Runtime W) (path : Path)
    (options : option (list (option LinkOption))) (w : W) :
  Files.isDirectory rt path options w
    = swallowing attr_isDirectory (Files.readAttributesWithType rt path None options w)
  /\ Files.isRegularFile rt path options w
    = swallowing attr_isRegularFile (Files.readAttributesWithType rt path None options w)
  /\ Files.isSymbolicLink rt path w
    = swallowing attr_isSymbolicLink
        (Files.readAttributesWithType rt path None (Some [Some NOFOLLOW_LINKS]) w)
  /\ (exists b w1, Files.isDirectory rt path options w = (Ok b, w1))
  /\ (exists b w1, Files.isRegularFile rt path options w = (Ok b, w1))
  /\ (exists b w1, Files.isSymbolicLink rt path w = (Ok b, w1))
  /\ Files.size rt path w
    = propagating attr_size (Files.readAttributesWithType rt path None None w)
  /\ Files.getLastModifiedTime rt path options w
    = propagating attr_lastModifiedTime
        (Files.readAttributesWithType rt path None options w).
Proof.
  assert (D : Files.isDirectory rt path options w
    = swallowing attr_isDirectory (Files.readAttributesWithType rt path None options w)).
  { unfold Files.isDirectory, swallowing. unfold_js. next_call; reflexivity. }
  assert (R : Files.isRegularFile rt path options w
    = swallowing attr_isRegularFile (Files.readAttributesWithType rt path None options w)).
  { unfold Files.isRegularFile, swallowing. unfold_js. next_call; reflexivity. }
  assert (L : Files.isSymbolicLink rt path w
    = swallowing attr_isSymbolicLink
        (Files.readAttributesWithType rt path None (Some [Some NOFOLLOW_LINKS]) w)).
  { unfold Files.isSymbolicLink, swallowing. unfold_js. next_call; reflexivity. }
  split; [exact D|]. split; [exact R|]. split; [exact L|].
  split; [rewrite D; apply swallowing_returns|].
  split; [rewrite R; apply swallowing_returns|].
  split; [rewrite L; apply swallowing_returns|].
  split.
  - unfold Files.size, propagating. unfold_js. next_call; reflexivity.
  - unfold Files.getLastModifiedTime, propagating. unfold_js. next_call; reflexivity.
Qed.

End Getters.

(** ** exists and notExists *)

Module Existence.

Import MemFs.

(** The check both predicates run inside their [try]: the options are
    scanned, then an access check (following links) or an attribute read
    (not following them). *)
Definition existence_check {W} (rt : Runtime W) (path : Path)
    (options : option (list (option LinkOption))) : M W unit :=
  follow <- Files.followLinks options ;;
  if follow
  then checkAccess (Files.provider rt path) path None
  else Files.readAttributesWithType rt path (Some "BasicFileAttributes")
         (Some [Some NOFOLLOW_LINKS]) ;;
       ret tt.

Lemma exists_by_check {W} (rt : Runtime W) path options w :
  Files.exists_ rt path options w =
    match existence_check rt path options w with
    | (Ok _, w1) => (Ok true, w1)
    | (Throw _, w1) => (Ok false, w1)
    end.
Proof.
  unfold Files.exists_, existence_check. unfold_js.
  destruct (Files.followLinks options w) as [[[|]|x] w1]; simpl; auto.
  - destruct (checkAccess _ _ _ _) as [[u|x] w2]; auto.
  - destruct (Files.readAttributesWithType _ _ _ _ _) as [[a|x] w2]; auto.
Qed.

Lemma notExists_by_check {W} (rt : Runtime W) path options w :
  Files.notExists rt path options w =
    match existence_check rt path options w with
    | (Ok _, w1) => (Ok false, w1)
    | (Throw x, w1) => (Ok (instanceof_NoSuchFileException x), w1)
    end.
Proof.
  unfold Files.notExists, existence_check. unfold_js.
  destruct (Files.followLinks options w) as [[[|]|x] w1]; simpl.
  - destruct (checkAccess _ _ _ _) as [[u|x] w2]; auto.
    destruct (instanceof_NoSuchFileException x); auto.
  - destruct (Files.readAttributesWithType _ _ _ _ _) as [[a|x] w2]; auto.
    destruct (instanceof_NoSuchFileException x); auto.
  - destruct (instanceof_NoSuchFileException x); auto.
Qed.

(** C4: [notExists] answers [true] exactly when the existence check
    throws a [NoSuchFileException] and [false] on every other failure;
    [exists] answers [false] on every failure.  When the check throws a
    [SecurityException] both answer [false], so the two are not
    complements. *)
Theorem exists_notExists_not_complements {W} (rt : Runtime W) (path : Path)
    (options : option (list (option LinkOption))) (w : W) :
  let check := fst (existence_check rt path options w) in
  (fst (Files.notExists rt path options w) = Ok true <->
     exists x, check = Throw x /\ instanceof_NoSuchFileException x = true)
  /\ (forall x, check = Throw x -> instanceof_NoSuchFileException x = false ->
        fst (Files.notExists rt path options w) = Ok false)
  /\ (forall x, check = Throw x ->
        fst (Files.exists_ rt path options w) = Ok false)
  /\ (forall x, check = Throw x -> instanceof_SecurityException x = true ->
        fst (Files.exists_ rt path options w) = Ok false
        /\ fst (Files.notExists rt path options w) = Ok false).
Proof.
  intros check. subst check.
  rewrite exists_by_check, notExists_by_check.
  destruct (existence_check rt path options w) as [[u|y] w1]; simpl.
  - split; [|split; [|split]]; try (intros; discriminate).
    split; [discriminate | intros (x & H & _); discriminate].
  - split; [|split; [|split]].
    + split.
      * intros H. exists y. split; congruence.
      * intros (x & H & N). congruence.
    + intros x H N. congruence.
    + reflexivity.
    + intros x H S. injection H as ->. destruct x; try discriminate. auto.
Qed.

(** A directory nobody may read, and a path below it. *)
Definition secret_world : World := mkWorld [(["secret"], Directory)] [["secret"]] [].
Definition secret_file : Path := path 0 ["secret"; "f"].

Lemma exists_notExists_both_false :
  fst (existence_check runtime secret_file None secret_world)
    = Throw (SecurityException "/secret/f")
  /\ fst (Files.exists_ runtime secret_file None secret_world) = Ok false
  /\ fst (Files.notExists runtime secret_file None secret_world) = Ok false.
Proof.
  split; [reflexivity|].
  apply (proj2 (proj2 (proj2
           (exists_notExists_not_complements runtime secret_file None secret_world)))
           (SecurityException "/secret/f"));
    reflexivity.
Defined.

End Existence.

(** ** copy and move *)

Module CopyMove.

Import MemFs.

(** What follows the delegate's [await]: the target is returned when the
    delegate completes, its failure is the call's failure. *)
Definition then_target {W} (target : Path) (delegate : Result unit * W)
  : Result Path * W :=
  match delegate with
  | (Ok _, w1) => (Ok target, w1)
  | (Throw x, w1) => (Throw x, w1)
  end.

(** C7: [copy] and [move] call the provider's own [copy] / [move] when
    both paths have the same provider object, and the cross-provider
    helper otherwise; whenever the call returns, it returns the target. *)
Theorem copy_move_dispatch {W} (rt : Runtime W) (source target : Path)
    (options : option (list (option CopyOption))) (w : W) :
  (Files.provider_ref target = Files.provider_ref source ->
     Files.copy rt source target options w
       = then_target target
           (provider_copy (Files.provider rt source) source target options w)
     /\ Files.move rt source target options w
       = then_target target
           (provider_move (Files.provider rt source) source target options w))
  /\ (Files.provider_ref target <> Files.provider_ref source ->
     Files.copy rt source target options w
       = then_target target (copyToForeignTarget rt source target options w)
     /\ Files.move rt source target options w
       = then_target target (moveToForeignTarget rt source target options w))
  /\ (forall r w1, Files.copy rt source target options w = (Ok r, w1) -> r = target)
  /\ (forall r w1, Files.move rt source target options w = (Ok r, w1) -> r = target).
Proof.
  unfold Files.copy, Files.move, then_target, Files.provider. unfold_js.
  split; [|split; [|split]].
  - intros E. rewrite (proj2 (Nat.eqb_eq _ _) E). fold (Files.provider_ref source).
    split; next_call; reflexivity.
  - intros N. rewrite (proj2 (Nat.eqb_neq _ _) N).
    split; next_call; reflexivity.
  - intros r w1. next_call; congruence.
  - intros r w1. next_call; congruence.
Qed.

(** A file on provider 0, copied within provider 0 and across to
    provider 1. *)
Definition one_file : World := mkWorld [(["src"], RegularFile)] [] [].

Lemma copy_move_dispatch_on_one_file :
  Files.copy runtime (path 0 ["src"]) (path 0 ["dst"]) None one_file
    = (Ok (path 0 ["dst"]), insert ["dst"] RegularFile one_file)
  /\ Files.copy runtime (path 0 ["src"]) (path 1 ["dst"]) None one_file
    = (Ok (path 1 ["dst"]), insert ["dst"] RegularFile one_file).
Proof.
  pose proof (copy_move_dispatch runtime (path 0 ["src"]) (path 0 ["dst"]) None one_file)
    as (Same & _).
  pose proof (copy_move_dispatch runtime (path 0 ["src"]) (path 1 ["dst"]) None one_file)
    as (_ & Foreign & _).
  split.
  - rewrite (proj1 (Same eq_refl)). reflexivity.
  - rewrite (proj1 (Foreign ltac:(discriminate))). reflexivity.
Defined.

End CopyMove.

(** ** The provider registry *)

Module Registry.

Import MemFs.
Import FileSystems.

Section Scans.
Context {W : Type}.

(** The result of the first provider the test accepts, or the
    "not found" failure naming the scheme. *)
Definition first_match (test : FileSystemProvider W -> bool)
    (ps : list (FileSystemProvider W)) (scheme : string) (url : URL) : M W FileSystem :=
  match find test ps with
  | Some provider => provider_getFileSystem provider url
  | None => throw (not_found scheme)
  end.

Lemma getFileSystem_scan_find (ps : list (FileSystemProvider W)) scheme url :
  getFileSystem_scan ps scheme url = first_match (scheme_matches scheme) ps scheme url.
Proof.
  unfold first_match.
  induction ps as [|p ps IH]; simpl; [reflexivity|].
  unfold scheme_matches at 1.
  destruct (String.eqb (getScheme p) scheme); auto.
Qed.

Lemma find_agree {A} (f g : A -> bool) (l : list A) :
  (forall a, In a l -> f a = g a) -> find f l = find g l.
Proof.
  induction l as [|a l IH]; simpl; intros H; [reflexivity|].
  rewrite <- (H a) by auto.
  destruct (f a); auto.
Qed.

Lemma newFileSystem_scan_filter (ps : list (FileSystemProvider W)) scheme uri env w :
  newFileSystem_scan ps scheme uri env w
    = first_supporting (filter (scheme_matches scheme) ps) scheme uri env w.
Proof.
  revert w.
  induction ps as [|p ps IH]; intros w; simpl; [reflexivity|].
  unfold scheme_matches at 1.
  rewrite (String.eqb_sym scheme (getScheme p)).
  destruct (String.eqb (getScheme p) scheme); simpl; [|apply IH].
  unfold_js.
  destruct (newFileSystemFromUrl p uri env w) as [[fs|x] w1]; [reflexivity|].
  destruct (instanceof_UnsupportedOperationException x); [apply IH | reflexivity].
Qed.

End Scans.

(** One provider registered under an upper-case scheme. *)
Definition upper_registry : list (FileSystemProvider World) :=
  [memProvider "FILE:" 0 unsupported].

(** C5, as stated, fails: only the URL's scheme is lower-cased, the
    provider's is compared as it is.  A URL with scheme [file:] differs
    only in case from the registered [FILE:] and is not resolved. *)
Lemma getFileSystem_upper_case_scheme :
  equalsIgnoreCase "file:" "FILE:" = true
  /\ getFileSystem upper_registry (mkURL "file:" "file:///") empty
     = (Throw (not_found "file:"), empty).
Proof.
  split; reflexivity.
Qed.

(** C5, amended: [getFileSystem] lower-cases the URL's scheme, scans the
    registry once and compares that string with each provider's scheme; it
    returns the result of the first provider whose scheme equals it and
    otherwise fails with [ProviderNotFoundException] naming the
    lower-cased scheme.  When the registered schemes are lower-case this is
    the first provider whose scheme equals the URL's up to case. *)
Theorem getFileSystem_first_match {W} (installed : list (FileSystemProvider W))
    (url : URL) (w : W) :
  let scheme := toLowerCase (protocol url) in
  getFileSystem installed url w
    = first_match (scheme_matches scheme) installed scheme url w
  /\ ((forall p, In p installed -> toLowerCase (getScheme p) = getScheme p) ->
      getFileSystem installed url w
        = first_match (fun p => equalsIgnoreCase (getScheme p) (protocol url))
            installed scheme url w).
Proof.
  intros scheme. unfold getFileSystem. fold scheme.
  rewrite getFileSystem_scan_find.
  split; [reflexivity|].
  intros Lower. unfold first_match.
  rewrite (find_agree (scheme_matches scheme)
             (fun p => equalsIgnoreCase (getScheme p) (protocol url))); [reflexivity|].
  intros p In_p. unfold scheme_matches, equalsIgnoreCase.
  rewrite (Lower p In_p). reflexivity.
Qed.

(** Providers for [a:] and [b:], and a URL whose scheme is [A:]. *)
Definition ab_registry : list (FileSystemProvider World) :=
  [memProvider "a:" 1 unsupported; memProvider "b:" 2 unsupported].

Lemma getFileSystem_ab_registry :
  getFileSystem ab_registry (mkURL "A:" "A://host/") empty = (Ok (fs 1), empty)
  /\ getFileSystem ab_registry (mkURL "c:" "c://host/") empty
     = (Throw (not_found "c:"), empty).
Proof.
  assert (Lower : forall p, In p ab_registry -> toLowerCase (getScheme p) = getScheme p).
  { intros p [<-|[<-|[]]]; reflexivity. }
  split.
  - rewrite (proj2 (getFileSystem_first_match ab_registry (mkURL "A:" "A://host/") empty)
               Lower).
    reflexivity.
  - rewrite (proj2 (getFileSystem_first_match ab_registry (mkURL "c:" "c://host/") empty)
               Lower).
    reflexivity.
Defined.

(** C6: [newFileSystem] selects providers by the scheme test of
    [getFileSystem]; a selected provider that throws
    [UnsupportedOperationException] is passed over for the next selected
    one, any other exception is the call's failure, and when no selected
    provider returns the call fails with [ProviderNotFoundException]
    naming the scheme. *)
Theorem newFileSystem_refines_spec {W} (installed : list (FileSystemProvider W))
    (uri : URL) (env : list (string * string)) (w : W) :
  let scheme := toLowerCase (protocol uri) in
  newFileSystem installed uri env w = newFileSystem_spec installed uri env w
  /\ getFileSystem installed uri w
     = first_match (scheme_matches scheme) installed scheme uri w.
Proof.
  intros scheme. split.
  - unfold newFileSystem, newFileSystem_spec.
    apply newFileSystem_scan_filter.
  - unfold getFileSystem. fold scheme.
    rewrite getFileSystem_scan_find. reflexivity.
Qed.

(** Two providers of one scheme: the first does not support creation,
    the second does. *)
Example newFileSystem_layered :
  newFileSystem
    [memProvider "zip:" 1 unsupported; memProvider "zip:" 2 (Ok (fs 2))]
    (mkURL "ZIP:" "zip:///a.zip") [] empty
  = (Ok (fs 2), empty).
Proof. reflexivity. Qed.

Example newFileSystem_other_failure :
  newFileSystem
    [memProvider "zip:" 1 (Throw (SecurityException "denied"));
     memProvider "zip:" 2 (Ok (fs 2))]
    (mkURL "zip:" "zip:///a.zip") [] empty
  = (Throw (SecurityException "denied"), empty).
Proof. reflexivity. Qed.

End Registry.

(** ** createDirectories *)

Module Directories.

Import MemFs.

(** The option array [[LinkOption.NOFOLLOW_LINKS]]. *)
Definition no_follow : option (list (option LinkOption)) :=
  Some [Some NOFOLLOW_LINKS].

Section Facts.
Context {W : Type}.
Variable rt : Runtime W.

Lemma isDirectory_returns path options w :
  exists b w1, Files.isDirectory rt path options w = (Ok b, w1).
Proof.
  unfold Files.isDirectory. unfold_js. next_call; eauto.
Qed.

(** One creation attempt, by the outcome of the provider's call. *)
Lemma createAndCheckIsDirectory_cases dir attrs w :
  Files.createAndCheckIsDirectory rt dir attrs w =
    match createDirectory (Files.provider rt dir) dir attrs w with
    | (Ok _, w1) => (Ok tt, w1)
    | (Throw x, w1) =>
        if instanceof_FileAlreadyExistsException x
        then match Files.isDirectory rt dir no_follow w1 with
             | (Ok true, w2) => (Ok tt, w2)
             | (Ok false, w2) => (Throw x, w2)
             | (Throw y, w2) => (Throw y, w2)
             end
        else (Ok tt, w1)
    end.
Proof.
  unfold Files.createAndCheckIsDirectory, Files.createDirectory. unfold_js.
  next_call; [reflexivity|].
  destruct (instanceof_FileAlreadyExistsException x); [|reflexivity].
  unfold no_follow.
  destruct (Files.isDirectory rt dir _ w0) as [[[|]|y] w2]; reflexivity.
Qed.

(** The only exception a creation attempt lets through is the provider's
    "already exists". *)
Lemma createAndCheckIsDirectory_throws dir attrs w x w1 :
  Files.createAndCheckIsDirectory rt dir attrs w = (Throw x, w1) ->
  instanceof_FileAlreadyExistsException x = true.
Proof.
  rewrite createAndCheckIsDirectory_cases.
  destruct (createDirectory _ _ _ _) as [[u|y] w2]; [discriminate|].
  destruct (instanceof_FileAlreadyExistsException y) eqn:F; [|discriminate].
  destruct (isDirectory_returns dir no_follow w2) as (b & w3 & ->).
  destruct b; [discriminate|]. congruence.
Qed.

(** Hence the first [try] of [createDirectories] always decides: its
    [catch] re-throws whatever reaches it, and the statements after it
    are not reached. *)
Lemma createDirectories_first_try dir attrs w :
  Files.createDirectories rt dir attrs w =
    match Files.createAndCheckIsDirectory rt dir attrs w with
    | (Ok _, w1) => (Ok dir, w1)
    | (Throw x, w1) => (Throw x, w1)
    end.
Proof.
  unfold Files.createDirectories. unfold_js.
  destruct (Files.createAndCheckIsDirectory rt dir attrs w) as [[u|x] w1] eqn:E;
    [reflexivity|].
  rewrite (createAndCheckIsDirectory_throws _ _ _ _ _ E). reflexivity.
Qed.

(** The upward walk met a failing access check at every parent, from
    [parent] up to the root, taking the world from [w] to [w']. *)
Inductive all_denied : option Path -> W -> W -> Prop :=
| denied_null w : all_denied None w w
| denied_step p w x w1 w2 :
    checkAccess (Files.provider rt p) p None w = (Throw x, w1) ->
    all_denied (getParent p) w1 w2 ->
    all_denied (Some p) w w2.

Lemma find_accessible_parent_step p w :
  Files.find_accessible_parent rt (Some p) w =
    match checkAccess (Files.provider rt p) p None w with
    | (Ok _, w1) => (Ok (Some p), w1)
    | (Throw _, w1) => Files.find_accessible_parent rt (getParent p) w1
    end.
Proof.
  simp find_accessible_parent.
  destruct (checkAccess (Files.provider rt p) p None w) as [[u|x] w1]; simpl;
    simp find_accessible_parent; reflexivity.
Qed.

Lemma find_accessible_parent_denied parent w w' :
  all_denied parent w w' ->
  Files.find_accessible_parent rt parent w = (Ok None, w').
Proof.
  induction 1 as [w | p w x w1 w2 Check _ IH].
  - simp find_accessible_parent. reflexivity.
  - rewrite find_accessible_parent_step, Check. exact IH.
Qed.

(** What the walk throws when it ends at [null]: the remembered security
    failure ([se]) when there is one, and otherwise a
    [FileSystemException] on the path. *)
Definition no_root (se : option Exception) (dir : Path) : Exception :=
  match se with
  | Some x => x
  | None => FileSystemException (toString dir) None
              "Unable to determine if root directory exists"
  end.

(** [se] and [dir] after the [try] around [toAbsolutePath]. *)
Definition remembered (dir : Path) (absolute : Result Path) : option Exception * Path :=
  match absolute with
  | Ok abs => (None, abs)
  | Throw x => (if instanceof_SecurityException x then Some x else None, dir)
  end.

End Facts.

(** *** On the in-memory provider *)

Lemma names_eqb_refl (k : list string) : names_eqb k k = true.
Proof.
  induction k as [|n k IH]; simpl; [reflexivity|].
  rewrite String.eqb_refl. exact IH.
Qed.

Lemma lookup_insert (k : list string) (e : Entry) (w : World) :
  k <> [] -> lookup (insert k e w) k = Some e.
Proof.
  intros N. unfold lookup, insert. simpl.
  destruct k as [|n k]; [congruence|].
  rewrite names_eqb_refl. reflexivity.
Qed.

(** On the in-memory provider a second [createDirectories] succeeds
    whenever the first did, and changes nothing. *)
Lemma createDirectories_twice (dir : Path) (attrs : option FileAttributes) (w w1 : World) :
  Files.createDirectories runtime dir attrs w = (Ok dir, w1) ->
  Files.createDirectories runtime dir attrs w1 = (Ok dir, w1).
Proof.
  rewrite !createDirectories_first_try, !createAndCheckIsDirectory_cases.
  unfold Files.isDirectory, Files.readAttributesWithType, Files.provider, no_follow.
  unfold_js. simpl.
  unfold mem_createDirectory, mem_readAttributesWithType.
  destruct (covered (unreadable w) (names dir)) eqn:U; simpl.
  { intros [= <-]. rewrite U. reflexivity. }
  destruct (lookup w (names dir)) as [e|] eqn:L; simpl.
  { rewrite U, L. destruct e; simpl; intros [= <-]; rewrite U, L; simpl;
      rewrite ?U, ?L; reflexivity. }
  destruct (lookup w (removelast (names dir))) as [[| |]|] eqn:P; simpl;
    try (intros [= <-]; rewrite U, L, P; reflexivity).
  destruct (covered (readonly w) (names dir)) eqn:R; simpl.
  { intros [= <-]. rewrite U, L, P, R. reflexivity. }
  intros [= <-]. simpl. rewrite U.
  assert (N : names dir <> []).
  { intros Z. rewrite Z in L. discriminate. }
  rewrite (lookup_insert _ Directory w N). simpl.
  rewrite U, (lookup_insert _ Directory w N). reflexivity.
Qed.

(** *** C1 *)

(** A regular file [/f]. *)
Definition file_world : World := mkWorld [(["f"], RegularFile)] [] [].

(** C1 at its failing input: [/f] is a regular file and the directory
    [/f/d] is asked for.  The claim has the call fail with
    [FileAlreadyExistsException].  The provider refuses the creation (the
    parent is not a directory), [createAndCheckIsDirectory] drops that
    failure because it is not an "already exists", and
    [createDirectories] returns [/f/d] as if it had been created: the
    backend is unchanged and holds nothing at [/f/d]. *)
Theorem createDirectories_below_a_file :
  lookup file_world ["f"] = Some RegularFile
  /\ createDirectory (Files.provider runtime (path 0 ["f"; "d"])) (path 0 ["f"; "d"])
       None file_world
     = (Throw (FileSystemException "/f/d" None "Not a directory"), file_world)
  /\ Files.createDirectories runtime (path 0 ["f"; "d"]) None file_world
     = (Ok (path 0 ["f"; "d"]), file_world)
  /\ lookup file_world ["f"; "d"] = None.
Proof.
  repeat split.
Qed.

(** The part of the tolerance that the code keeps: when the creation of
    a segment fails with [FileAlreadyExistsException], the exception is
    suppressed if and only if [isDirectory], asked without following
    links, answers [true], and otherwise that same exception is
    re-thrown, by [createDirectories] too. *)
Lemma createAndCheckIsDirectory_suppresses {W} (rt : Runtime W) (dir : Path)
    (attrs : option FileAttributes) (w : W) (x : Exception) (w1 : W) (isDir : bool)
    (w2 : W) :
  createDirectory (Files.provider rt dir) dir attrs w = (Throw x, w1) ->
  instanceof_FileAlreadyExistsException x = true ->
  Files.isDirectory rt dir no_follow w1 = (Ok isDir, w2) ->
  Files.createAndCheckIsDirectory rt dir attrs w
    = (if isDir then Ok tt else Throw x, w2)
  /\ Files.createDirectories rt dir attrs w
    = (if isDir then Ok dir else Throw x, w2).
Proof.
  intros Create Exists Dir.
  rewrite createDirectories_first_try, createAndCheckIsDirectory_cases.
  rewrite Create, Exists, Dir.
  destruct isDir; split; reflexivity.
Qed.

(** The directory [/a], once created. *)
Definition a_world : World := insert ["a"] Directory empty.

Example createDirectories_on_existing_entries :
  Files.createDirectories runtime (path 0 ["f"]) None file_world
    = (Throw (FileAlreadyExistsException "/f"), file_world)
  /\ Files.createDirectories runtime (path 0 ["a"]) None empty
    = (Ok (path 0 ["a"]), a_world)
  /\ Files.createDirectories runtime (path 0 ["a"]) None a_world
    = (Ok (path 0 ["a"]), a_world).
Proof.
  repeat split.
Qed.

(** *** C8 *)

(** A backend on which every call is denied, and the relative path
    [a/b]. *)
Definition denied_world : World := mkWorld [] [[]] [].
Definition relative_ab : Path := mkPath (fs 0) false ["a"; "b"].

(** C8 at its failing input: every call on the backend is denied, so the
    access check fails on every parent of [/a/b] up to the root, and on
    the parent of the relative [a/b], whose absolute form cannot be had
    either.  The claim has the call fail, explaining that the existence of
    a root directory could not be determined.  The denied creation is not
    an "already exists", [createAndCheckIsDirectory] drops it, and
    [createDirectories] returns the path without walking upward and
    without throwing. *)
Theorem createDirectories_all_denied :
  all_denied runtime (getParent (path 0 ["a"; "b"])) denied_world denied_world
  /\ createDirectory (Files.provider runtime (path 0 ["a"; "b"])) (path 0 ["a"; "b"])
       None denied_world
     = (Throw (SecurityException "/a/b"), denied_world)
  /\ Files.createDirectories runtime (path 0 ["a"; "b"]) None denied_world
     = (Ok (path 0 ["a"; "b"]), denied_world)
  /\ all_denied runtime (getParent relative_ab) denied_world denied_world
  /\ Files.toAbsolutePath runtime relative_ab denied_world
     = (Throw (SecurityException "user.dir"), denied_world)
  /\ Files.createDirectories runtime relative_ab None denied_world
     = (Ok relative_ab, denied_world).
Proof.
  split; [|split; [|split; [|split; [|split]]]]; try reflexivity.
  - eapply denied_step; [reflexivity|].
    eapply denied_step; [reflexivity|]. apply denied_null.
  - eapply denied_step; [reflexivity|]. apply denied_null.
Qed.

(** The statements that follow the first [try] of [createDirectories],
    taken by themselves ([createDirectories_first_try] shows that the
    function never gets to them): when the access check fails on every
    parent up to the root, the walk ends at [null] and they throw the
    [SecurityException] remembered from [toAbsolutePath] when there is
    one, and otherwise a [FileSystemException] on the path with the reason
    "Unable to determine if root directory exists". *)
Lemma fallback_without_accessible_ancestor {W} (rt : Runtime W) (dir : Path)
    (attrs : option FileAttributes) (w : W) (absolute : Result Path) (w1 w2 : W) :
  Files.toAbsolutePath rt dir w = (absolute, w1) ->
  all_denied rt (getParent (snd (remembered dir absolute))) w1 w2 ->
  Files.createDirectories_fallback rt dir attrs w
    = (Throw (no_root (fst (remembered dir absolute)) (snd (remembered dir absolute))),
       w2).
Proof.
  intros Abs Denied.
  apply find_accessible_parent_denied in Denied.
  unfold Files.createDirectories_fallback. unfold_js. rewrite Abs.
  destruct absolute as [abs|x]; simpl in *.
  - rewrite Denied. reflexivity.
  - destruct (instanceof_SecurityException x); simpl; rewrite Denied; reflexivity.
Qed.

Example fallback_on_denied_world :
  Files.createDirectories_fallback runtime (path 0 ["a"; "b"]) None denied_world
    = (Throw (FileSystemException "/a/b" None
                "Unable to determine if root directory exists"),
       denied_world)
  /\ Files.createDirectories_fallback runtime relative_ab None denied_world
    = (Throw (SecurityException "user.dir"), denied_world).
Proof.
  split; reflexivity.
Qed.

End Directories.

(** ** copyFromStream *)

Module StreamCopy.

Import MemFs.

(** The options with which the target is opened. *)
Definition create_new : option (list StandardOpenOption) := Some [CREATE_NEW; WRITE].

(** The completion that is pending when the [finally] block starts, from
    the outcome of the pipe: a [FileAlreadyExistsException] is replaced by
    the remembered security failure when there is one and thrown, any
    other failure is dropped by the [catch]. *)
Definition pending (se : option Exception) (piped : Result unit) : Result unit :=
  match piped with
  | Ok _ => Ok tt
  | Throw x =>
      if instanceof_FileAlreadyExistsException x
      then Throw (match se with Some s => s | None => x end)
      else Ok tt
  end.

Section Facts.
Context {W : Type}.
Variable rt : Runtime W.

(** When the target cannot be opened the variable [outputStream] is
    still [undefined] in the [finally] block, and reading [close] from it
    is what the caller sees. *)
Lemma transfer_not_opened input target se w x w1 :
  Files.newOutputStream rt target create_new w = (Throw x, w1) ->
  Files.copyFromStream_transfer rt input target se w = (Throw TypeError, w1).
Proof.
  intros Open.
  unfold Files.copyFromStream_transfer, Files.close_outputStream, create_new in *.
  unfold_js. simpl. rewrite Open.
  destruct (instanceof_FileAlreadyExistsException x); [destruct se|]; reflexivity.
Qed.

(** When the target was opened, [close] runs last on every path, and
    its failure replaces the pending completion. *)
Lemma transfer_opened input target se w os w1 piped w2 :
  Files.newOutputStream rt target create_new w = (Ok os, w1) ->
  pipeTo rt input os w1 = (piped, w2) ->
  Files.copyFromStream_transfer rt input target se w =
    match stream_close rt os w2 with
    | (Ok _, w3) => (pending se piped, w3)
    | (Throw c, w3) => (Throw c, w3)
    end.
Proof.
  intros Open Pipe.
  unfold Files.copyFromStream_transfer, Files.close_outputStream, create_new, pending in *.
  unfold_js. simpl. rewrite Open. simpl. rewrite Pipe.
  destruct piped as [[]|x]; simpl.
  - destruct (stream_close rt os w2) as [[v|c] w3]; reflexivity.
  - destruct (instanceof_FileAlreadyExistsException x); [destruct se|]; simpl;
      destruct (stream_close rt os w2) as [[v|c] w3]; reflexivity.
Qed.

(** The option scan does not touch the world. *)
Lemma copyFromStream_options_pure opts replace (w : W) :
  snd (Files.copyFromStream_options opts replace w) = w.
Proof.
  revert replace.
  induction opts as [|[[|n]|] opts IH]; intros replace; simpl; auto.
Qed.

End Facts.

(** *** C10 *)

(** C10: with the options omitted the call throws before anything else
    happens: [undefined] is iterated right after the test of the input
    stream, so the call throws a [TypeError] (a [NullPointerException] when
    the input stream is missing too) and the world is untouched.  An empty
    array passes the scan and leads to the transfer with nothing
    remembered. *)
Theorem copyFromStream_without_options {W} (rt : Runtime W)
    (inputStream : option ReadableStream) (target : Path) (w : W) :
  (exists x, Files.copyFromStream rt inputStream target None w = (Throw x, w))
  /\ (forall input,
        Files.copyFromStream rt (Some input) target None w = (Throw TypeError, w))
  /\ (forall input,
        Files.copyFromStream rt (Some input) target (Some []) w
          = Files.copyFromStream_transfer rt input target None w).
Proof.
  split; [|split].
  - destruct inputStream; simpl; unfold_js; eauto.
  - reflexivity.
  - intros input. unfold Files.copyFromStream. unfold_js. simpl.
    destruct (Files.copyFromStream_transfer rt input target None w) as [[u|x] w1];
      reflexivity.
Qed.

Example copyFromStream_empty_options :
  Files.copyFromStream runtime (Some 0) (path 0 ["out"]) (Some []) empty
    = (Ok tt, insert ["out"] RegularFile empty).
Proof. reflexivity. Qed.

(** *** C2 *)

(** A file [/ro/t] in a directory in which nothing may be created or
    deleted. *)
Definition readonly_world : World :=
  mkWorld [(["ro"], Directory); (["ro"; "t"], RegularFile)] [] [["ro"]].
Definition readonly_target : Path := path 0 ["ro"; "t"].

(** C2 at its failing input: REPLACE_EXISTING is requested, the pre-delete
    of the target is denied and the target exists.  The denial is
    remembered and the open fails with [FileAlreadyExistsException], but
    the caller receives neither: the [finally] block reads [close] from the
    unassigned stream variable and its [TypeError] replaces the
    [SecurityException] the [catch] block had thrown. *)
Theorem copyFromStream_conflict_after_denied_delete :
  Files.delete_before_copy runtime readonly_target true readonly_world
    = (Ok (Some (SecurityException "/ro/t")), readonly_world)
  /\ Files.newOutputStream runtime readonly_target create_new readonly_world
    = (Throw (FileAlreadyExistsException "/ro/t"), readonly_world)
  /\ Files.copyFromStream runtime (Some 0) readonly_target
       (Some [Some REPLACE_EXISTING]) readonly_world
    = (Throw TypeError, readonly_world).
Proof.
  repeat split.
Qed.

(** *** C9 *)

(** Streams whose pipe reports a conflict and whose close fails. *)
Definition broken_streams : Runtime World :=
  {| providers := providers runtime;
     pipeTo := fun _ _ => throw (FileAlreadyExistsException "/out");
     stream_close := fun _ => throw (JsError "close failed");
     copyToForeignTarget := copyToForeignTarget runtime;
     moveToForeignTarget := moveToForeignTarget runtime |}.

(** C9, as stated, fails: a failure of the cleanup does replace the
    primary failure.  With an opened stream, the conflict reported by the
    pipe is lost to the failure of [close]; and when the open itself failed
    there is no stream, and the attempt to close it is what the caller
    sees instead of the conflict. *)
Lemma copyFromStream_cleanup_masks :
  Files.copyFromStream broken_streams (Some 0) (path 0 ["out"]) (Some []) empty
    = (Throw (JsError "close failed"), insert ["out"] RegularFile empty)
  /\ Files.newOutputStream runtime readonly_target create_new readonly_world
    = (Throw (FileAlreadyExistsException "/ro/t"), readonly_world)
  /\ Files.copyFromStream runtime (Some 0) readonly_target (Some []) readonly_world
    = (Throw TypeError, readonly_world).
Proof.
  repeat split.
Qed.

(** C9, amended: once the options are accepted and the output stream has
    been opened, [copyFromStream] closes that stream as its last step on
    every path, whether the pipe completed or failed; when the close
    fails, its failure is the call's outcome, and otherwise the outcome is
    the one pending from the pipe. *)
Theorem copyFromStream_closes_opened_stream {W} (rt : Runtime W)
    (input : ReadableStream) (target : Path) (opts : list (option CopyOption))
    (w : W) (replace : bool) (se : option Exception) (w0 : W)
    (os : WritableStream) (w1 : W) (piped : Result unit) (w2 : W) :
  fst (Files.copyFromStream_options opts false w) = Ok replace ->
  Files.delete_before_copy rt target replace w = (Ok se, w0) ->
  Files.newOutputStream rt target create_new w0 = (Ok os, w1) ->
  pipeTo rt input os w1 = (piped, w2) ->
  Files.copyFromStream rt (Some input) target (Some opts) w =
    match stream_close rt os w2 with
    | (Ok _, w3) => (pending se piped, w3)
    | (Throw c, w3) => (Throw c, w3)
    end.
Proof.
  intros Scan Delete Open Pipe.
  pose proof (copyFromStream_options_pure opts false w) as Pure.
  unfold Files.copyFromStream. unfold bind at 1 2 3. simpl.
  destruct (Files.copyFromStream_options opts false w) as [r w'].
  simpl in Scan, Pure. subst r w'.
  rewrite Delete.
  apply (transfer_opened rt input target se w0 os w1 piped w2 Open Pipe).
Qed.

Lemma copyFromStream_closes_opened_stream_runs :
  Files.copyFromStream runtime (Some 0) (path 0 ["out"]) (Some []) empty
    = (Ok tt, insert ["out"] RegularFile empty)
  /\ Files.copyFromStream broken_streams (Some 0) (path 0 ["out"]) (Some []) empty
    = (Throw (JsError "close failed"), insert ["out"] RegularFile empty).
Proof.
  split.
  - apply (copyFromStream_closes_opened_stream runtime 0 (path 0 ["out"]) [] empty
             false None empty 1 (insert ["out"] RegularFile empty) (Ok tt)
             (insert ["out"] RegularFile empty)); reflexivity.
  - apply (copyFromStream_closes_opened_stream broken_streams 0 (path 0 ["out"]) [] empty
             false None empty 1 (insert ["out"] RegularFile empty)
             (Throw (FileAlreadyExistsException "/out"))
             (insert ["out"] RegularFile empty)); reflexivity.
Defined.

End StreamCopy.

(** ** Link options and the existence predicates *)

Module LinkOptions.

Import MemFs.
Import Existence.

(** An array element that is [LinkOption.NOFOLLOW_LINKS]. *)
Definition is_nofollow (opt : option LinkOption) : bool :=
  match opt with
  | Some NOFOLLOW_LINKS => true
  | _ => false
  end.

(** What [followLinks] answers, read off the first element that is not
    [NOFOLLOW_LINKS]. *)
Definition followLinks_answer (options : option (list (option LinkOption)))
  : Result bool :=
  match options with
  | None => Ok true
  | Some opts =>
      match find (fun opt => negb (is_nofollow opt)) opts with
      | None => Ok (match opts with [] => true | _ => false end)
      | Some None => Throw (NullPointerException EmptyString)
      | Some (Some _) => Throw (JsError "Should not get here")
      end
  end.

Lemma followLinks_loop_find {W} (opts : list (option LinkOption)) (follow : bool) (w : W) :
  Files.followLinks_loop opts follow w =
    (match find (fun opt => negb (is_nofollow opt)) opts with
     | None => Ok (match opts with [] => follow | _ => false end)
     | Some None => Throw (NullPointerException EmptyString)
     | Some (Some _) => Throw (JsError "Should not get here")
     end, w).
Proof.
  revert follow.
  induction opts as [|[[|]|] opts IH]; intros follow; simpl; try reflexivity.
  rewrite IH. destruct (find _ opts) as [[o|]|]; try reflexivity.
  destruct opts; reflexivity.
Qed.

Lemma followLinks_find {W} options (w : W) :
  Files.followLinks options w = (followLinks_answer options, w).
Proof.
  destruct options as [opts|]; simpl; [|reflexivity].
  apply followLinks_loop_find.
Qed.

(** X1: [followLinks] touches nothing and is decided by the first array
    element that is not [NOFOLLOW_LINKS]: a null element throws a
    [NullPointerException], any other value throws the "Should not get
    here" error, and without such an element the answer is [false] for a
    non-empty array and [true] for an empty or omitted one.  So a
    non-empty array never yields [true]. *)
Theorem followLinks_outcome {W} (options : option (list (option LinkOption))) (w : W) :
  Files.followLinks options w = (followLinks_answer options, w)
  /\ (forall opt opts, options = Some (opt :: opts) ->
        fst (Files.followLinks options w) <> Ok true).
Proof.
  split; [apply followLinks_find|].
  intros opt opts ->. rewrite followLinks_find. simpl.
  destruct (is_nofollow opt); simpl.
  - destruct (find _ opts) as [[o|]|]; discriminate.
  - destruct opt; discriminate.
Qed.

Lemma followLinks_outcome_runs :
  fst (Files.followLinks (Some [Some NOFOLLOW_LINKS; None]) empty) <> Ok true
  /\ Files.followLinks (Some [Some NOFOLLOW_LINKS; None]) empty
     = (Throw (NullPointerException EmptyString), empty).
Proof.
  split.
  - apply (proj2 (followLinks_outcome (Some [Some NOFOLLOW_LINKS; None]) empty)
             (Some NOFOLLOW_LINKS) [None]).
    reflexivity.
  - reflexivity.
Defined.

(** X2: [exists] and [notExists] never throw, and on the same backend
    state they are never both [true]. *)
Theorem exists_notExists_never_both {W} (rt : Runtime W) (path : Path)
    (options : option (list (option LinkOption))) (w : W) :
  (exists b w1, Files.exists_ rt path options w = (Ok b, w1))
  /\ (exists b w1, Files.notExists rt path options w = (Ok b, w1))
  /\ ~ (fst (Files.exists_ rt path options w) = Ok true
        /\ fst (Files.notExists rt path options w) = Ok true).
Proof.
  rewrite exists_by_check, notExists_by_check.
  destruct (existence_check rt path options w) as [[u|x] w1]; simpl.
  - repeat split; eauto. intros [_ H]. discriminate.
  - repeat split; eauto. intros [H _]. discriminate.
Qed.

Lemma exists_notExists_never_both_runs :
  ~ (fst (Files.exists_ runtime (path 0 ["missing"]) None empty) = Ok true
     /\ fst (Files.notExists runtime (path 0 ["missing"]) None empty) = Ok true).
Proof.
  exact (proj2 (proj2 (exists_notExists_never_both runtime (path 0 ["missing"])
                         None empty))).
Defined.

(** X3: when the option array is rejected by [followLinks] (a null or
    foreign element), [exists] and [notExists] both answer [false] and no
    provider is called. *)
Theorem exists_notExists_bad_options {W} (rt : Runtime W) (path : Path)
    (options : option (list (option LinkOption))) (w : W) (x : Exception) :
  followLinks_answer options = Throw x ->
  Files.exists_ rt path options w = (Ok false, w)
  /\ Files.notExists rt path options w = (Ok false, w).
Proof.
  intros Bad.
  assert (N : instanceof_NoSuchFileException x = false).
  { destruct options as [opts|]; simpl in Bad; [|discriminate].
    destruct (find _ opts) as [[o|]|]; try discriminate;
      injection Bad as <-; reflexivity. }
  rewrite exists_by_check, notExists_by_check.
  unfold existence_check. unfold_js.
  rewrite followLinks_find, Bad, N. split; reflexivity.
Qed.

Lemma exists_notExists_bad_options_runs :
  Files.exists_ runtime (path 0 []) (Some [None]) empty = (Ok false, empty)
  /\ Files.notExists runtime (path 0 []) (Some [None]) empty = (Ok false, empty).
Proof.
  apply (exists_notExists_bad_options runtime (path 0 []) (Some [None]) empty
           (NullPointerException EmptyString)).
  reflexivity.
Defined.

End LinkOptions.

(** ** copyFromStream: options, pre-delete and pipe failures *)

Module StreamCopyOptions.

Import MemFs.
Import StreamCopy.

(** An array element that is [StandardCopyOption.REPLACE_EXISTING]. *)
Definition is_replace (opt : option CopyOption) : bool :=
  match opt with
  | Some REPLACE_EXISTING => true
  | _ => false
  end.

(** The first array element the option loop rejects. *)
Definition first_rejected (opts : list (option CopyOption)) : option (option CopyOption) :=
  find (fun opt => negb (is_replace opt)) opts.

(** The exception for a rejected element. *)
Definition rejection (opt : option CopyOption) : Exception :=
  match opt with
  | None => NullPointerException "options contains 'null'"
  | Some o => UnsupportedOperationException (CopyOption_toString o ++ " not supported")
  end.

(** [replaceExisting] after a loop that rejected nothing. *)
Definition requested (opts : list (option CopyOption)) : bool :=
  match opts with
  | [] => false
  | _ => true
  end.

Section Facts.
Context {W : Type}.
Variable rt : Runtime W.

Lemma copyFromStream_options_find (opts : list (option CopyOption)) (replace : bool)
    (w : W) :
  Files.copyFromStream_options opts replace w =
    (match first_rejected opts with
     | Some opt => Throw (rejection opt)
     | None => Ok (replace || requested opts)
     end, w).
Proof.
  unfold first_rejected. revert replace.
  induction opts as [|[[|n]|] opts IH]; intros replace; simpl; try reflexivity.
  - rewrite Bool.orb_false_r. reflexivity.
  - rewrite IH. destruct (find _ opts); [reflexivity|].
    rewrite Bool.orb_true_r. reflexivity.
Qed.

Lemma delete_before_copy_returns target replace w :
  exists se w1, Files.delete_before_copy rt target replace w = (Ok se, w1).
Proof.
  unfold Files.delete_before_copy. destruct replace; unfold_js; [|eauto].
  destruct (Files.deleteIfExists rt target w) as [[b|x] w1]; [eauto|].
  destruct (instanceof_SecurityException x); eauto.
Qed.

End Facts.

(** X4: the option array is checked in full before anything else
    happens.  When some element is not REPLACE_EXISTING the call throws for
    the first such element (a [NullPointerException] for null, an
    [UnsupportedOperationException] naming the option otherwise) and no
    provider is called, not even the pre-delete that an earlier
    REPLACE_EXISTING asks for.  Otherwise the call is the pre-delete,
    requested exactly when the array is not empty, followed by the
    transfer. *)
Theorem copyFromStream_validation {W} (rt : Runtime W) (input : ReadableStream)
    (target : Path) (opts : list (option CopyOption)) (w : W) :
  Files.copyFromStream rt (Some input) target (Some opts) w =
    match first_rejected opts with
    | Some opt => (Throw (rejection opt), w)
    | None =>
        (se <- Files.delete_before_copy rt target (requested opts) ;;
         Files.copyFromStream_transfer rt input target se) w
    end.
Proof.
  unfold Files.copyFromStream. unfold bind at 1 2. simpl.
  rewrite copyFromStream_options_find.
  destruct (first_rejected opts); reflexivity.
Qed.

(** A replace request followed by a null element, on a target that could
    be deleted: nothing is deleted. *)
Example copyFromStream_rejects_before_delete :
  Files.copyFromStream runtime (Some 0) (path 0 ["f"])
    (Some [Some REPLACE_EXISTING; None]) Directories.file_world
  = (Throw (NullPointerException "options contains 'null'"), Directories.file_world).
Proof. reflexivity. Qed.

(** X5: the pre-delete never makes [copyFromStream] fail.  It remembers
    an exception exactly when REPLACE_EXISTING was requested and
    [deleteIfExists] threw a [SecurityException]; any other failure of the
    delete is forgotten, and without the request the backend is not
    touched. *)
Theorem delete_before_copy_remembers {W} (rt : Runtime W) (target : Path)
    (replace : bool) (w : W) :
  exists se w1,
    Files.delete_before_copy rt target replace w = (Ok se, w1)
    /\ (forall x, se = Some x <->
          replace = true
          /\ fst (Files.deleteIfExists rt target w) = Throw x
          /\ instanceof_SecurityException x = true)
    /\ (replace = false -> w1 = w).
Proof.
  unfold Files.delete_before_copy. destruct replace; unfold_js.
  - destruct (Files.deleteIfExists rt target w) as [[b|y] w1] eqn:D; simpl.
    + exists None, w1. repeat split; try discriminate.
      intros (_ & H & _). discriminate.
    + destruct (instanceof_SecurityException y) eqn:S.
      * exists (Some y), w1. repeat split; try discriminate.
        -- congruence.
        -- injection H as <-. exact S.
        -- intros (_ & H & _). congruence.
      * exists None, w1. repeat split; try discriminate.
        intros (_ & H & S'). injection H as <-. congruence.
  - exists None, w. repeat split; try discriminate.
    intros (H & _). discriminate.
Qed.

Lemma delete_before_copy_remembers_runs :
  Files.delete_before_copy runtime readonly_target true readonly_world
    = (Ok (Some (SecurityException "/ro/t")), readonly_world).
Proof.
  destruct (delete_before_copy_remembers runtime readonly_target true readonly_world)
    as (se & w1 & Run & Remembered & _).
  rewrite Run.
  assert (E : Files.delete_before_copy runtime readonly_target true readonly_world
              = (Ok (Some (SecurityException "/ro/t")), readonly_world))
    by reflexivity.
  rewrite E in Run. exact (eq_sym Run).
Defined.

(** Streams whose pipe fails with an error of the host. *)
Definition failing_pipe : Runtime World :=
  {| providers := providers runtime;
     pipeTo := fun _ _ => throw (JsError "read failed");
     stream_close := stream_close runtime;
     copyToForeignTarget := copyToForeignTarget runtime;
     moveToForeignTarget := moveToForeignTarget runtime |}.

(** X6: a failure of the pipe that is not a
    [FileAlreadyExistsException] is not reported.  With accepted options
    and an opened target, when the pipe throws such an exception and the
    close returns, [copyFromStream] returns normally. *)
Theorem copyFromStream_drops_pipe_failure {W} (rt : Runtime W)
    (input : ReadableStream) (target : Path) (opts : list (option CopyOption))
    (w : W) (se : option Exception) (w0 : W) (os : WritableStream) (w1 : W)
    (x : Exception) (w2 w3 : W) :
  first_rejected opts = None ->
  Files.delete_before_copy rt target (requested opts) w = (Ok se, w0) ->
  Files.newOutputStream rt target create_new w0 = (Ok os, w1) ->
  pipeTo rt input os w1 = (Throw x, w2) ->
  instanceof_FileAlreadyExistsException x = false ->
  stream_close rt os w2 = (Ok tt, w3) ->
  Files.copyFromStream rt (Some input) target (Some opts) w = (Ok tt, w3).
Proof.
  intros Valid Delete Open Pipe Other Close.
  unfold Files.copyFromStream. unfold bind at 1 2 3. simpl.
  rewrite copyFromStream_options_find, Valid. simpl.
  rewrite Delete.
  rewrite (transfer_opened rt input target se w0 os w1 (Throw x) w2 Open Pipe).
  rewrite Close. unfold pending. rewrite Other. reflexivity.
Qed.

Lemma copyFromStream_drops_pipe_failure_runs :
  Files.copyFromStream failing_pipe (Some 0) (path 0 ["out"]) (Some []) empty
    = (Ok tt, insert ["out"] RegularFile empty).
Proof.
  apply (copyFromStream_drops_pipe_failure failing_pipe 0 (path 0 ["out"]) [] empty
           None empty 1 (insert ["out"] RegularFile empty) (JsError "read failed")
           (insert ["out"] RegularFile empty) (insert ["out"] RegularFile empty));
    reflexivity.
Defined.

End StreamCopyOptions.

(** ** copyToStream *)

Module StreamRead.

Import MemFs.
Import MemFsRest.

Section Facts.
Context {W : Type}.
Variable rt : Runtime W.
Variable rest : RuntimeRest W.

Lemma copyToStream_not_opened source output w x w1 :
  Files.newInputStream rest source None w = (Throw x, w1) ->
  Files.copyToStream rt rest source (Some output) w = (Throw TypeError, w1).
Proof.
  intros Open.
  unfold Files.copyToStream, Files.cancel_inputStream. unfold_js. simpl.
  rewrite Open. reflexivity.
Qed.

Lemma copyToStream_opened source output w input w1 piped w2 :
  Files.newInputStream rest source None w = (Ok input, w1) ->
  pipeTo rt input output w1 = (piped, w2) ->
  Files.copyToStream rt rest source (Some output) w =
    match stream_cancel rest input w2 with
    | (Ok _, w3) => (piped, w3)
    | (Throw c, w3) => (Throw c, w3)
    end.
Proof.
  intros Open Pipe.
  unfold Files.copyToStream, Files.cancel_inputStream. unfold_js. simpl.
  rewrite Open. simpl. rewrite Pipe.
  destruct piped as [[]|x]; simpl;
    destruct (stream_cancel rest input w2) as [[v|c] w3]; reflexivity.
Qed.

End Facts.

(** X7: [copyToStream] without an output stream throws a
    [NullPointerException] and calls nothing.  With one, when the source
    cannot be opened the caller does not see the provider's failure: the
    [finally] block reads [cancel] from the unassigned stream variable and
    the call throws a [TypeError]. *)
Theorem copyToStream_open_failure {W} (rt : Runtime W) (rest : RuntimeRest W)
    (source : Path) (w : W) :
  Files.copyToStream rt rest source None w
    = (Throw (NullPointerException EmptyString), w)
  /\ (forall output x w1,
        Files.newInputStream rest source None w = (Throw x, w1) ->
        Files.copyToStream rt rest source (Some output) w = (Throw TypeError, w1)).
Proof.
  split; [reflexivity|].
  intros output x w1. apply copyToStream_not_opened.
Qed.

Lemma copyToStream_open_failure_runs :
  Files.newInputStream rest (path 0 ["missing"]) None empty
    = (Throw (NoSuchFileException "/missing"), empty)
  /\ Files.copyToStream runtime rest (path 0 ["missing"]) (Some 1) empty
    = (Throw TypeError, empty).
Proof.
  split; [reflexivity|].
  apply (proj2 (copyToStream_open_failure runtime rest (path 0 ["missing"]) empty)
           1 (NoSuchFileException "/missing") empty).
  reflexivity.
Defined.

(** X8: once the source is opened, [copyToStream] pipes and then cancels
    the input stream as its last step, whether the pipe completed or
    failed.  When the cancel returns, the call's outcome is the pipe's own:
    unlike [copyFromStream], a failure of the pipe reaches the caller
    unchanged.  When the cancel throws, its exception is the outcome. *)
Theorem copyToStream_cancels {W} (rt : Runtime W) (rest : RuntimeRest W)
    (source : Path) (output : WritableStream) (w : W) (input : ReadableStream)
    (w1 : W) (piped : Result unit) (w2 : W) :
  Files.newInputStream rest source None w = (Ok input, w1) ->
  pipeTo rt input output w1 = (piped, w2) ->
  Files.copyToStream rt rest source (Some output) w =
    match stream_cancel rest input w2 with
    | (Ok _, w3) => (piped, w3)
    | (Throw c, w3) => (Throw c, w3)
    end.
Proof.
  apply copyToStream_opened.
Qed.

Lemma copyToStream_cancels_runs :
  Files.copyToStream StreamCopyOptions.failing_pipe rest (path 0 ["f"]) (Some 1)
    Directories.file_world
  = (Throw (JsError "read failed"), Directories.file_world).
Proof.
  apply (copyToStream_cancels StreamCopyOptions.failing_pipe rest (path 0 ["f"]) 1
           Directories.file_world 2 Directories.file_world
           (Throw (JsError "read failed")) Directories.file_world);
    reflexivity.
Defined.

End StreamRead.

(** ** Attribute views *)

Module Views.

Import MemFs.
Import MemFsRest.

(** X9: the permission and owner operations need their view.  When the
    provider answers no view, [setPosixFilePermissions], [getOwner] and
    [setOwner] throw an [UnsupportedOperationException] right after the
    lookup; [setLastModifiedTime] has no such test and throws a
    [TypeError] there.  The three setters return the path they were given
    whenever they return. *)
Theorem views_missing {W} (rest : RuntimeRest W) (path : Path) (w : W) :
  (forall perms w1,
     Files.getFileAttributeView rest path (Some "PosixFileAttributeView") None w
       = (Ok None, w1) ->
     Files.setPosixFilePermissions rest path perms w
       = (Throw (UnsupportedOperationException EmptyString), w1))
  /\ (forall options w1,
     Files.getFileAttributeView rest path (Some "FileOwnerAttributeView") options w
       = (Ok None, w1) ->
     Files.getOwner rest path options w
       = (Throw (UnsupportedOperationException EmptyString), w1))
  /\ (forall owner w1,
     Files.getFileAttributeView rest path (Some "FileOwnerAttributeView") None w
       = (Ok None, w1) ->
     Files.setOwner rest path owner w
       = (Throw (UnsupportedOperationException EmptyString), w1))
  /\ (forall time w1,
     Files.getFileAttributeView rest path (Some "BasicFileAttributeView") None w
       = (Ok None, w1) ->
     Files.setLastModifiedTime rest path time w = (Throw TypeError, w1))
  /\ (forall perms r w1,
     Files.setPosixFilePermissions rest path perms w = (Ok r, w1) -> r = path)
  /\ (forall owner r w1,
     Files.setOwner rest path owner w = (Ok r, w1) -> r = path)
  /\ (forall time r w1,
     Files.setLastModifiedTime rest path time w = (Ok r, w1) -> r = path).
Proof.
  unfold Files.setPosixFilePermissions, Files.getOwner, Files.setOwner,
    Files.setLastModifiedTime, Files.invoke.
  unfold_js.
  repeat split.
  - intros perms w1 ->. reflexivity.
  - intros options w1 ->. reflexivity.
  - intros owner w1 ->. reflexivity.
  - intros time w1 ->. reflexivity.
  - intros perms r w1.
    destruct (Files.getFileAttributeView _ _ _ _ _) as [[[v|]|x] w2]; try discriminate.
    destruct (setPermissions v) as [m|]; simpl; try discriminate.
    destruct (m perms w2) as [[u|x] w3]; congruence.
  - intros owner r w1.
    destruct (Files.getFileAttributeView _ _ _ _ _) as [[[v|]|x] w2]; try discriminate.
    destruct (view_setOwner v) as [m|]; simpl; try discriminate.
    destruct (m owner w2) as [[u|x] w3]; congruence.
  - intros time r w1.
    destruct (Files.getFileAttributeView _ _ _ _ _) as [[[v|]|x] w2]; try discriminate.
    destruct (setTimes v) as [m|]; simpl; try discriminate.
    destruct (m (Some time) None None w2) as [[u|x] w3]; congruence.
Qed.

Lemma views_missing_runs :
  Files.setOwner rest (path 0 ["f"]) "root" Directories.file_world
    = (Throw (UnsupportedOperationException EmptyString), Directories.file_world)
  /\ Files.setLastModifiedTime rest (path 0 ["f"]) 7 Directories.file_world
    = (Ok (path 0 ["f"]), Directories.file_world).
Proof.
  split.
  - apply (proj1 (proj2 (proj2 (views_missing rest (path 0 ["f"]) Directories.file_world)))
             "root" Directories.file_world).
    reflexivity.
  - reflexivity.
Defined.

End Views.

(** ** createDirectories: what it throws and where it stops *)

Module DirectoriesOutcome.

Import MemFs.
Import Directories.

Section Facts.
Context {W : Type}.
Variable rt : Runtime W.

Lemma create_segments_throws child segments attrs w x w1 :
  Files.create_segments rt child segments attrs w = (Throw x, w1) ->
  instanceof_FileAlreadyExistsException x = true.
Proof.
  revert child w.
  induction segments as [|name rest IH]; intros child w; simpl.
  - discriminate.
  - unfold_js.
    destruct (Files.createAndCheckIsDirectory rt (resolve child name) attrs w)
      as [[u|y] w2] eqn:E.
    + apply IH.
    + intros [= <- <-]. exact (createAndCheckIsDirectory_throws rt _ _ _ _ _ E).
Qed.

(** The upward walk from [parent] in [w] ends at [found] in [w']: every
    access check before [found] threw, and the check of [found]
    returned; [found] is [None] when the checks threw up to the root. *)
Inductive first_accessible : option Path -> W -> option Path -> W -> Prop :=
| walk_null w : first_accessible None w None w
| walk_here p w u w1 :
    checkAccess (Files.provider rt p) p None w = (Ok u, w1) ->
    first_accessible (Some p) w (Some p) w1
| walk_up p w x w1 found w2 :
    checkAccess (Files.provider rt p) p None w = (Throw x, w1) ->
    first_accessible (getParent p) w1 found w2 ->
    first_accessible (Some p) w found w2.

Lemma find_accessible_parent_bounded (n : nat) :
  forall parent w, rank parent < n ->
    exists found w',
      Files.find_accessible_parent rt parent w = (Ok found, w')
      /\ first_accessible parent w found w'.
Proof.
  induction n as [|n IH]; intros parent w Bound; [lia|].
  destruct parent as [p|].
  - rewrite find_accessible_parent_step.
    destruct (checkAccess (Files.provider rt p) p None w) as [[u|x] w1] eqn:Check.
    + exists (Some p), w1. split; [reflexivity|]. eapply walk_here; eauto.
    + pose proof (getParent_rank p) as Lower.
      destruct (IH (getParent p) w1) as (found & w' & Run & Walk); [lia|].
      exists found, w'. split; [exact Run|]. eapply walk_up; eauto.
  - exists None, w. split; [|apply walk_null].
    simp find_accessible_parent. reflexivity.
Qed.

End Facts.

(** X10: the only exception [createDirectories] (and each creation of a
    segment) lets through is a [FileAlreadyExistsException] that the
    provider threw when asked to create that very path.  When the
    provider's [createDirectory] fails with any other exception, a missing
    parent or a denied permission included, [createDirectories] returns the
    path at once: the backend is left as the failed call left it and no
    ancestor is created. *)
Theorem createDirectories_only_already_exists {W} (rt : Runtime W) (dir : Path)
    (attrs : option FileAttributes) (w : W) :
  (forall x w1,
     Files.createDirectories rt dir attrs w = (Throw x, w1) ->
     instanceof_FileAlreadyExistsException x = true
     /\ fst (createDirectory (Files.provider rt dir) dir attrs w) = Throw x)
  /\ (forall x w1,
     createDirectory (Files.provider rt dir) dir attrs w = (Throw x, w1) ->
     instanceof_FileAlreadyExistsException x = false ->
     Files.createDirectories rt dir attrs w = (Ok dir, w1))
  /\ (forall child segments x w1,
     Files.create_segments rt child segments attrs w = (Throw x, w1) ->
     instanceof_FileAlreadyExistsException x = true).
Proof.
  split; [|split].
  - intros x w1.
    rewrite createDirectories_first_try, createAndCheckIsDirectory_cases.
    destruct (createDirectory _ _ _ _) as [[u|y] w2]; [discriminate|].
    destruct (instanceof_FileAlreadyExistsException y) eqn:F; [|discriminate].
    destruct (isDirectory_returns rt dir no_follow w2) as (b & w3 & ->).
    destruct b; [discriminate|]. intros [= <- <-]. auto.
  - intros x w1 Create Other.
    rewrite createDirectories_first_try, createAndCheckIsDirectory_cases.
    rewrite Create, Other. reflexivity.
  - intros child segments x w1. apply create_segments_throws.
Qed.

Lemma createDirectories_only_already_exists_runs :
  Files.createDirectories runtime (path 0 ["a"; "b"]) None empty
    = (Ok (path 0 ["a"; "b"]), empty)
  /\ lookup empty ["a"] = None.
Proof.
  split; [|reflexivity].
  apply (proj1 (proj2 (createDirectories_only_already_exists runtime
                         (path 0 ["a"; "b"]) None empty))
           (NoSuchFileException "/a/b") empty); reflexivity.
Defined.

(** X11: the upward walk of [createDirectories] never throws and always
    ends: it returns the first path, from the given parent towards the
    root, whose access check returns, after a throwing check on every
    path before it, and [null] when the checks threw at every level. *)
Theorem find_accessible_parent_first {W} (rt : Runtime W) (parent : option Path)
    (w : W) :
  exists found w',
    Files.find_accessible_parent rt parent w = (Ok found, w')
    /\ first_accessible rt parent w found w'.
Proof.
  apply (find_accessible_parent_bounded rt (S (rank parent))). lia.
Qed.

(** Below the directory [/a], the walk from [/a/b/c] stops at [/a]. *)
Example find_accessible_parent_stops :
  Files.find_accessible_parent runtime (Some (path 0 ["a"; "b"; "c"])) a_world
    = (Ok (Some (path 0 ["a"])), a_world).
Proof. reflexivity. Qed.

End DirectoriesOutcome.

(** ** The registry as it grows *)

Module RegistryGrowth.

Import MemFs.
Import FileSystems.

Section Facts.
Context {W : Type}.

Lemma getFileSystem_scan_app (ps later : list (FileSystemProvider W)) scheme url w r w1 :
  getFileSystem_scan ps scheme url w = (r, w1) ->
  r <> Throw (not_found scheme) ->
  getFileSystem_scan (ps ++ later) scheme url w = (r, w1).
Proof.
  induction ps as [|p ps IH]; simpl.
  - unfold throw. intros [= <- <-] N. congruence.
  - destruct (String.eqb (getScheme p) scheme); auto.
Qed.

Lemma newFileSystem_scan_app (ps later : list (FileSystemProvider W)) scheme uri env :
  forall w r w1,
    newFileSystem_scan ps scheme uri env w = (r, w1) ->
    r <> Throw (not_found scheme) ->
    newFileSystem_scan (ps ++ later) scheme uri env w = (r, w1).
Proof.
  induction ps as [|p ps IH]; simpl; intros w r w1.
  - unfold throw. intros [= <- <-] N. congruence.
  - destruct (String.eqb scheme (getScheme p)); [|apply IH].
    unfold_js.
    destruct (newFileSystemFromUrl p uri env w) as [[fs|x] w2]; [auto|].
    destruct (instanceof_UnsupportedOperationException x); [apply IH | auto].
Qed.

Lemma scans_without_match (ps : list (FileSystemProvider W)) scheme url env w :
  (forall p, In p ps -> getScheme p <> scheme) ->
  getFileSystem_scan ps scheme url w = (Throw (not_found scheme), w)
  /\ newFileSystem_scan ps scheme url env w = (Throw (not_found scheme), w).
Proof.
  induction ps as [|p ps IH]; simpl; intros Other; [split; reflexivity|].
  assert (N : getScheme p <> scheme) by (apply Other; auto).
  rewrite (String.eqb_sym scheme (getScheme p)).
  rewrite (proj2 (String.eqb_neq _ _) N).
  apply IH. intros q In_q. apply Other. auto.
Qed.

End Facts.

(** X12: providers registered after the installed ones cannot change a
    lookup that did not end in "provider not found": [getFileSystem] and
    [newFileSystem] give the same result, and leave the same backend
    state, on the longer registry. *)
Theorem lookups_stable_under_registration {W}
    (installed later : list (FileSystemProvider W)) (url : URL)
    (env : list (string * string)) (w : W) :
  let scheme := toLowerCase (protocol url) in
  (forall r w1,
     getFileSystem installed url w = (r, w1) ->
     r <> Throw (not_found scheme) ->
     getFileSystem (installed ++ later) url w = (r, w1))
  /\ (forall r w1,
     newFileSystem installed url env w = (r, w1) ->
     r <> Throw (not_found scheme) ->
     newFileSystem (installed ++ later) url env w = (r, w1)).
Proof.
  intros scheme. unfold getFileSystem, newFileSystem. fold scheme. split.
  - intros r w1. apply getFileSystem_scan_app.
  - intros r w1. apply newFileSystem_scan_app.
Qed.

Lemma lookups_stable_under_registration_runs :
  getFileSystem (Registry.ab_registry ++ [memProvider "a:" 3 unsupported])
    (mkURL "a:" "a://host/") empty
  = (Ok (fs 1), empty).
Proof.
  apply (proj1 (lookups_stable_under_registration Registry.ab_registry
                  [memProvider "a:" 3 unsupported] (mkURL "a:" "a://host/") [] empty)).
  - reflexivity.
  - discriminate.
Defined.

(** X13: when no installed provider has the URL's lower-cased scheme,
    [getFileSystem] and [newFileSystem] fail alike, with the
    [ProviderNotFoundException] whose message quotes that scheme, and no
    provider is called. *)
Theorem lookups_of_unknown_scheme {W} (installed : list (FileSystemProvider W))
    (url : URL) (env : list (string * string)) (w : W) :
  let scheme := toLowerCase (protocol url) in
  (forall p, In p installed -> getScheme p <> scheme) ->
  getFileSystem installed url w
    = (Throw (ProviderNotFoundException
                ("Provider " ++ dquote ++ scheme ++ dquote ++ " not found")), w)
  /\ newFileSystem installed url env w = getFileSystem installed url w.
Proof.
  intros scheme Other.
  destruct (scans_without_match installed scheme url env w Other) as [Get New].
  unfold getFileSystem, newFileSystem. fold scheme.
  rewrite Get, New. split; reflexivity.
Qed.

Lemma lookups_of_unknown_scheme_runs :
  newFileSystem Registry.ab_registry (mkURL "C:" "c://host/") [] empty
    = getFileSystem Registry.ab_registry (mkURL "C:" "c://host/") empty.
Proof.
  apply (lookups_of_unknown_scheme Registry.ab_registry (mkURL "C:" "c://host/") [] empty).
  intros p [<-|[<-|[]]]; discriminate.
Defined.

End RegistryGrowth.

(** ** Directory streams *)

Module Listing.

Import MemFs.
Import MemFsRest.

(** A provider whose filtered stream yields the entries of its unfiltered
    stream that pass the filter. *)
Definition filters_listing {W} (p : ProviderRest W) : Prop :=
  forall dir filter w,
    newDirectoryStream p dir filter w =
      match newDirectoryStream p dir (fun _ => true) w with
      | (Ok all, w1) => (Ok (List.filter filter all), w1)
      | (Throw x, w1) => (Throw x, w1)
      end.

Lemma filter_all {A} (l : list A) : List.filter (fun _ => true) l = l.
Proof.
  induction l as [|a l IH]; simpl; [reflexivity | now rewrite IH].
Qed.

Lemma filter_filter_all {A} (f : A -> bool) (l : list A) :
  List.filter f (List.filter (fun _ => true) l) = List.filter f l.
Proof.
  now rewrite filter_all.
Qed.

Lemma memProviderRest_filters : filters_listing memProviderRest.
Proof.
  intros dir filter w. simpl. unfold mem_newDirectoryStream.
  destruct (covered (unreadable w) (names dir)); [reflexivity|].
  destruct (lookup w (names dir)) as [[| |]|]; try reflexivity.
  now rewrite filter_filter_all.
Qed.

(** X14: the glob [*] lists the directory without asking the file system
    for a matcher.  Any other glob compiles ["glob:" + glob] first, and a
    failure to compile is the call's failure, before the provider is
    asked; on a provider that applies the filter it is given, the listing
    is then the unfiltered listing restricted to the entries whose file
    name, not whose whole path, the matcher accepts. *)
Theorem glob_listing {W} (rest : RuntimeRest W) (dir : Path) (glob : string) (w : W) :
  Files.newDirectoryStreamFilteredWithGlob rest dir "*" w
    = Files.newDirectoryStream rest dir w
  /\ (forall x w1,
        glob <> "*" ->
        getPathMatcher rest (getFileSystem dir) ("glob:" ++ glob) w = (Throw x, w1) ->
        Files.newDirectoryStreamFilteredWithGlob rest dir glob w = (Throw x, w1))
  /\ (forall matcher w1 all w2,
        glob <> "*" ->
        filters_listing (Files.provider_rest rest dir) ->
        getPathMatcher rest (getFileSystem dir) ("glob:" ++ glob) w = (Ok matcher, w1) ->
        Files.newDirectoryStream rest dir w1 = (Ok all, w2) ->
        Files.newDirectoryStreamFilteredWithGlob rest dir glob w
          = (Ok (List.filter (fun entry => matcher (getFileName entry)) all), w2)).
Proof.
  split; [reflexivity|]. split.
  - intros x w1 Other Compile.
    unfold Files.newDirectoryStreamFilteredWithGlob.
    rewrite (proj2 (String.eqb_neq _ _) Other). unfold_js.
    rewrite Compile. reflexivity.
  - intros matcher w1 all w2 Other Filters Compile All.
    unfold Files.newDirectoryStreamFilteredWithGlob, Files.newDirectoryStream in *.
    rewrite (proj2 (String.eqb_neq _ _) Other). unfold_js.
    rewrite Compile, Filters, All. reflexivity.
Qed.

(** A directory [/d] with the files [x] and [y], and a directory [/e]
    with another [x]. *)
Definition listing_world : World :=
  mkWorld [(["d"], Directory); (["d"; "x"], RegularFile); (["d"; "y"], RegularFile);
           (["e"], Directory); (["e"; "x"], RegularFile)] [] [].

Lemma glob_listing_runs :
  Files.newDirectoryStreamFilteredWithGlob rest (path 0 ["d"]) "x" listing_world
    = (Ok [path 0 ["d"; "x"]], listing_world)
  /\ Files.newDirectoryStream rest (path 0 ["d"]) listing_world
    = (Ok [path 0 ["d"; "x"]; path 0 ["d"; "y"]], listing_world).
Proof.
  split; [|reflexivity].
  apply (proj2 (proj2 (glob_listing rest (path 0 ["d"]) "x" listing_world))
           (literal_matcher "glob:x") listing_world
           [path 0 ["d"; "x"]; path 0 ["d"; "y"]] listing_world).
  - discriminate.
  - apply memProviderRest_filters.
  - reflexivity.
  - reflexivity.
Defined.

End Listing.
